(** * can-paper: report plotting and topology comparison scripts

    A shallow embedding of the computational parts of
    [code/scripts/report_plot.py] and
    [code/scripts/visualize_topology_comparison.py], together with the
    properties stated for them.

    Conventions of the embedding:
    - a Python [int] is a [Z]; a Python/NumPy [float] is a binary64
      value of [PrimFloat.float];
    - a value loaded by [json.load] is a [json]; a [dict] keeps its
      insertion order and is an association list;
    - code that may raise returns a [result]; the exception class is kept;
    - calls to the charting library are recorded, in order, as a list of
      [ax_call] events. *)

From Stdlib Require Import ZArith List String Ascii Lia.
From Stdlib Require Import PrimFloat FloatOps SpecFloat.
From Stdlib Require FloatAxioms.
From stdpp Require Import base tactics option list strings pretty gmap.

Local Open Scope Z_scope.

(** ** Exceptions and the error monad *)

Inductive exn : Set :=
  | TypeError
  | ValueError
  | OverflowError
  | IndexError
  | ZeroDivisionError
  | AttributeError.

Inductive result (A : Type) : Type :=
  | Ok (a : A)
  | Raise (e : exn).
Arguments Ok {A} a.
Arguments Raise {A} e.

#[global] Instance result_ret : MRet result := fun _ a => Ok a.
#[global] Instance result_bind : MBind result := fun _ _ f m =>
  match m with
  | Ok a => f a
  | Raise e => Raise e
  end.
#[global] Instance result_fmap : FMap result := fun _ _ f m =>
  match m with
  | Ok a => Ok (f a)
  | Raise e => Raise e
  end.

(** [[f(v) for v in l]] for an [f] that may raise: left to right, the first
    exception wins. *)
Fixpoint traverse {A B : Type} (f : A -> result B) (l : list A) : result (list B) :=
  match l with
  | [] => Ok []
  | a :: l' =>
      match f a with
      | Ok b =>
          match traverse f l' with
          | Ok bs => Ok (b :: bs)
          | Raise e => Raise e
          end
      | Raise e => Raise e
      end
  end.

(** [for k in range(start, start + count): s = body(k, s)], stopping at the
    first exception. *)
Fixpoint for_range {S : Type} (body : nat -> S -> result S)
    (start count : nat) (s : S) : result S :=
  match count with
  | O => Ok s
  | Datatypes.S count' =>
      match body start s with
      | Ok s' => for_range body (Datatypes.S start) count' s'
      | Raise e => Raise e
      end
  end.

(** [for a in l: s = body(a, s)]. *)
Fixpoint for_each {A S : Type} (body : A -> S -> result S)
    (l : list A) (s : S) : result S :=
  match l with
  | [] => Ok s
  | a :: l' =>
      match body a s with
      | Ok s' => for_each body l' s'
      | Raise e => Raise e
      end
  end.

(** ** Floats *)

Module Float.

Definition zero : float := 0%float.
Definition half : float := 0.5%float.
Definition one : float := 1%float.
Definition nan : float := PrimFloat.nan.

(** The binary64 value nearest to an integer (round half to even);
    [infinity] when the integer is out of range. *)
Definition of_Z (z : Z) : float :=
  SF2Prim (binary_normalize prec emax z 0 false).

(** Python's [float(n)] for an [int]: [OverflowError] when [n] is too
    large for a binary64. *)
Definition of_int (z : Z) : result float :=
  match binary_normalize prec emax z 0 false with
  | S754_infinity _ => Raise OverflowError
  | sf => Ok (SF2Prim sf)
  end.

(** The order NumPy sorts and searches floats by: NaN is last. *)
Definition np_less (a b : float) : bool :=
  PrimFloat.ltb a b || (PrimFloat.is_nan b && negb (PrimFloat.is_nan a)).

End Float.

(** ** JSON values as [json.load] returns them *)

#[local] Set Warnings "-register-all".

Inductive json : Type :=
  | JNull
  | JBool (b : bool)
  | JInt (z : Z)
  | JFloat (f : float)
  | JStr (s : string)
  | JList (l : list json)
  | JDict (d : list (string * json)).

(** [d.get(k, default)] *)
Fixpoint dict_get {V : Type} (d : list (string * V)) (k : string) : option V :=
  match d with
  | [] => None
  | (k', v) :: d' => if String.eqb k' k then Some v else dict_get d' k
  end.

(** [d[k] = v]: an existing key keeps its place, a new key goes last. *)
Fixpoint dict_set {V : Type} (d : list (string * V)) (k : string) (v : V)
    : list (string * V) :=
  match d with
  | [] => [(k, v)]
  | (k', v') :: d' =>
      if String.eqb k' k then (k', v) :: d' else (k', v') :: dict_set d' k v
  end.

Definition dict_keys {V : Type} (d : list (string * V)) : list string :=
  map fst d.

(** [acc_history.get(key)]: [None] when the key is absent. *)
Definition py_get (d : list (string * json)) (k : string) : json :=
  default JNull (dict_get d k).

(** [x.get(key, dflt)] on a loaded value: an [AttributeError] unless [x] is
    a dict. *)
Definition py_attr_get (x : json) (k : string) (dflt : json) : result json :=
  match x with
  | JDict d => Ok (default dflt (dict_get d k))
  | _ => Raise AttributeError
  end.

(** Truth value of a loaded value. *)
Definition py_truthy (x : json) : bool :=
  match x with
  | JNull => false
  | JBool b => b
  | JInt z => negb (z =? 0)
  | JFloat f => negb (PrimFloat.eqb f 0)
  | JStr s => negb (String.eqb s "")
  | JList l => match l with [] => false | _ => true end
  | JDict d => match d with [] => false | _ => true end
  end.

Module ReportPlot.

Abbreviation series_map := (list (string * list float)).
Abbreviation matrix := (list (list float)).

(** What one summary contributes to [title_parts]: the label and the two
    configuration values the f-string formats. *)
Abbreviation title_part := (string * json * json)%type.

Section WithStrParser.

(** Python's [float(s)] for a [str]: the built-in parser of decimal
    literals, [None] where it raises [ValueError]. *)
Variable float_of_str : string -> option float.

(** [float(v)] *)
Definition py_float (v : json) : result float :=
  match v with
  | JFloat f => Ok f
  | JInt z => Float.of_int z
  | JBool b => Ok (if b then Float.one else Float.zero)
  | JStr s =>
      match float_of_str s with
      | Some f => Ok f
      | None => Raise ValueError
      end
  | JNull | JList _ | JDict _ => Raise TypeError
  end.

(** The two recognised channels, in the order the loop visits them. *)
Definition known_keys : list string := ["readout"; "proto"].

(** Body of [for key in ['readout', 'proto']]. *)
Definition collect_key (acc_history : list (string * json))
    (key : string) (series : series_map) : result series_map :=
  match py_get acc_history key with
  | JList values =>
      fs ← traverse py_float values;
      Ok (dict_set series key fs)
  | _ => Ok series
  end.

Definition unknown_keys_note (acc_history : list (string * json)) : string :=
  "unknown keys: " +:+ String.concat ", " (dict_keys acc_history).

Definition _normalize_acc_history (acc_history : json)
    : result (option series_map * option string) :=
  match acc_history with
  | JNull => Ok (None, Some "missing")
  | JList l =>
      fs ← traverse py_float l;
      Ok (Some [("readout", fs)], None)
  | JDict d =>
      series ← for_each (collect_key d) known_keys [];
      series ←
        match series, py_get d "samples" with
        | [], JList samples =>
            fs ← traverse py_float samples;
            Ok (dict_set series "readout" fs)
        | _, _ => Ok series
        end;
      match series with
      | _ :: _ => Ok (Some series, None)
      | [] => Ok (None, Some (unknown_keys_note d))
      end
  | _ => Ok (None, Some "unsupported format")
  end.

(** *** Smoothing *)

(** [np.convolve(a, v, mode='same')] by its definition: the longer
    argument is the signal, the output has its length and is the centred
    part of the full convolution; each entry is a dot product
    accumulated in index order. Empty arguments raise [ValueError]. *)
Definition dot_at (a v : list float) (n_left : nat) (k : nat) : float :=
  fold_left
    (fun acc t =>
       let i := (Z.of_nat k + Z.of_nat t - Z.of_nat n_left)%Z in
       if (0 <=? i) && (i <? Z.of_nat (length a)) then
         match a !! Z.to_nat i, v !! (length v - 1 - t)%nat with
         | Some ai, Some vt => (acc + ai * vt)%float
         | _, _ => acc
         end
       else acc)
    (seq 0 (length v)) Float.zero.

Definition np_convolve_same (a v : list float) : result (list float) :=
  let (a, v) := if (length a <? length v)%nat then (v, a) else (a, v) in
  match a, v with
  | [], _ | _, [] => Raise ValueError
  | _, _ =>
      Ok (map (dot_at a v (length v / 2)%nat) (seq 0 (length a)))
  end.

(** [np.ones(window) / window] *)
Definition boxcar (window : Z) : list float :=
  replicate (Z.to_nat window) (Float.one / Float.of_Z window)%float.

Definition _smooth (values : list float) (window : Z) : result (list float) :=
  if (Z.of_nat (length values) <? 3) || (window <=? 1) then Ok values
  else np_convolve_same values (boxcar window).

(** *** Accuracy-history plotting *)

Inductive linestyle : Set := Solid | Dashed.

(** The calls made on the axes and the figure, in program order. *)
Inductive ax_call : Type :=
  | Plot (xs : list Z) (ys : list float) (style : linestyle) (label : string)
  | SetXLabel (s : string)
  | SetYLabel (s : string)
  | SetYLim (lo hi : float)
  | SetTitle (s : string)
  | Grid
  | Legend
  | SaveFigure (base out_dir : string) (formats : list string).

(** [list(range(n))] *)
Definition py_range (n : nat) : list Z := map Z.of_nat (seq 0 n).

(** The window [_plot_history_series] passes to [_smooth]. *)
Definition smooth_window (n : nat) : Z :=
  Z.min 25 (Z.max 3 (Z.of_nat n / 8)).

(** Body of [for label, values in series.items()]. *)
Definition plot_one_series (item : string * list float)
    (calls : list ax_call) : result (list ax_call) :=
  let (label, values) := item in
  match values with
  | [] => Ok calls
  | _ :: _ =>
      let xs := py_range (length values) in
      let calls := calls ++ [Plot xs values Solid label] in
      if 10 <=? Z.of_nat (length values) then
        smoothed ← _smooth values (smooth_window (length values));
        Ok (calls ++ [Plot xs smoothed Dashed (label +:+ " (smoothed)")])
      else Ok calls
  end.

Definition _plot_history_series (series : series_map)
    (title base out_dir : string) (formats : list string)
    : result (list ax_call) :=
  calls ← for_each plot_one_series series [];
  let calls :=
    calls ++ [SetXLabel "Trial index"; SetYLabel "Accuracy";
              SetYLim Float.zero Float.one; SetTitle title; Grid] in
  let calls :=
    if (1 <? length (dict_keys series))%nat then calls ++ [Legend] else calls in
  Ok (calls ++ [SaveFigure base out_dir formats]).

(** *** Binned averages for the probe heatmap *)

(** [np.zeros((rows, cols))] *)
Definition np_zeros (rows cols : nat) : matrix :=
  replicate rows (replicate cols Float.zero).

(** An index into an axis of length [n]: negative indices count from the
    end, anything else out of range raises [IndexError]. *)
Definition np_index (n : nat) (i : Z) : result nat :=
  if (0 <=? i) && (i <? Z.of_nat n) then Ok (Z.to_nat i)
  else if (- Z.of_nat n <=? i) && (i <? 0) then Ok (Z.to_nat (i + Z.of_nat n))
  else Raise IndexError.

(** [m[i, j] = f(m[i, j])] *)
Definition mat_update (f : float -> float) (i j : Z) (m : matrix)
    : result matrix :=
  r ← np_index (length m) i;
  match m !! r with
  | Some row =>
      c ← np_index (length row) j;
      Ok (<[r := alter f c row]> m)
  | None => Raise IndexError
  end.

(** [x.min()] and [x.max()]: a NaN anywhere gives NaN; an empty array
    raises [ValueError]. *)
Definition np_min (x : list float) : result float :=
  match x with
  | [] => Raise ValueError
  | x0 :: xs =>
      Ok (fold_left
            (fun m v =>
               if PrimFloat.is_nan m then m
               else if PrimFloat.is_nan v || PrimFloat.ltb v m then v else m)
            xs x0)
  end.

Definition np_max (x : list float) : result float :=
  match x with
  | [] => Raise ValueError
  | x0 :: xs =>
      Ok (fold_left
            (fun m v =>
               if PrimFloat.is_nan m then m
               else if PrimFloat.is_nan v || PrimFloat.ltb m v then v else m)
            xs x0)
  end.

(** [np.linspace(start, stop, num)] with the end point included. *)
Definition np_linspace (start stop : float) (num : nat) : list float :=
  let y := map (fun k => Float.of_Z (Z.of_nat k)) (seq 0 num) in
  let div := (Z.of_nat num - 1)%Z in
  let delta := (stop - start)%float in
  let y :=
    if 0 <? div then
      let step := (delta / Float.of_Z div)%float in
      if PrimFloat.eqb step 0 then
        map (fun v => (v / Float.of_Z div * delta)%float) y
      else map (fun v => (v * step)%float) y
    else map (fun v => (v * delta)%float) y in
  let y := map (fun v => (v + start)%float) y in
  if (1 <? num)%nat then <[(num - 1)%nat := stop]> y else y.

(** [np.searchsorted(edges, key, side='right')]: the binary search as
    NumPy runs it, with NaN ordered last. *)
Fixpoint binsearch_right (fuel : nat) (edges : list float) (key : float)
    (lo hi : nat) : nat :=
  match fuel with
  | O => lo
  | Datatypes.S fuel' =>
      if (lo <? hi)%nat then
        let mid := (lo + (hi - lo) / 2)%nat in
        if Float.np_less key (default Float.zero (edges !! mid))
        then binsearch_right fuel' edges key lo mid
        else binsearch_right fuel' edges key (Datatypes.S mid) hi
      else lo
  end.

Definition np_searchsorted_right (edges : list float) (key : float) : nat :=
  binsearch_right (Datatypes.S (length edges)) edges key 0 (length edges).

(** [np.clip(i, lo, hi)] *)
Definition np_clip (i lo hi : Z) : Z := Z.min (Z.max i lo) hi.

(** The bin a coordinate falls in: lines 168 and 170 (169 and 171). *)
Definition bin_index (edges : list float) (v : float) (bins : nat) : Z :=
  np_clip (Z.of_nat (np_searchsorted_right edges v) - 1) 0 (Z.of_nat bins - 1).

(** [zip(x, y, values)] *)
Fixpoint zip3 {A B C : Type} (x : list A) (y : list B) (z : list C)
    : list (A * B * C) :=
  match x, y, z with
  | a :: x', b :: y', c :: z' => (a, b, c) :: zip3 x' y' z'
  | _, _, _ => []
  end.

(** Body of [for xv, yv, v in zip(x, y, values)]. *)
Definition accumulate (x_edges y_edges : list float) (bins : nat)
    (sample : float * float * float) (st : matrix * matrix)
    : result (matrix * matrix) :=
  let '(xv, yv, v) := sample in
  let (grid, counts) := st in
  let xi := bin_index x_edges xv bins in
  let yi := bin_index y_edges yv bins in
  grid ← mat_update (fun g => (g + v)%float) yi xi grid;
  counts ← mat_update (fun c => (c + 1)%float) yi xi counts;
  Ok (grid, counts).

(** [counts[counts == 0] = 1] *)
Definition clamp_counts (counts : matrix) : matrix :=
  map (map (fun c => if PrimFloat.eqb c 0 then Float.one else c)) counts.

(** [grid / counts] *)
Definition mat_div (grid counts : matrix) : matrix :=
  zip_with (zip_with PrimFloat.div) grid counts.

Definition binned_stat (x y values : list float) (bins : nat)
    : result (matrix * list float * list float) :=
  x_lo ← np_min x;
  x_hi ← np_max x;
  let x_edges := np_linspace x_lo x_hi (bins + 1) in
  y_lo ← np_min y;
  y_hi ← np_max y;
  let y_edges := np_linspace y_lo y_hi (bins + 1) in
  let grid := np_zeros bins bins in
  let counts := np_zeros bins bins in
  '(grid, counts) ← for_each (accumulate x_edges y_edges bins)
                      (zip3 x y values) (grid, counts);
  let counts := clamp_counts counts in
  Ok (mat_div grid counts, x_edges, y_edges).

(** *** Perturbation recovery curves *)

(** [for v in x]: a list yields its items, a dict its keys, a str its
    characters (its bytes here: the same for ASCII); nothing else loaded
    from JSON is iterable. *)
Definition py_iter (x : json) : result (list json) :=
  match x with
  | JList l => Ok l
  | JDict d => Ok (map JStr (dict_keys d))
  | JStr s => Ok (map (fun c => JStr (String c EmptyString)) (list_ascii_of_string s))
  | _ => Raise TypeError
  end.

(** [np.nan if v is None else float(v)] *)
Definition nan_or_float (v : json) : result float :=
  match v with
  | JNull => Ok Float.nan
  | _ => py_float v
  end.

(** [np.array([np.nan if v is None else float(v) for v in similarity])] *)
Definition similarity_values (similarity : json) : result (list float) :=
  items ← py_iter similarity;
  traverse nan_or_float items.

(** Body of [for label, summary in summaries] (lines 308 to 318). *)
Definition plot_similarity (item : string * json)
    (st : list ax_call * list title_part)
    : result (list ax_call * list title_part) :=
  let (label, summary) := item in
  let (calls, title_parts) := st in
  by_offset ← py_attr_get summary "similarityByOffset" (JDict []);
  similarity ← py_attr_get by_offset "mean" (JList []);
  if negb (py_truthy similarity) then Ok st
  else
    values ← similarity_values similarity;
    let xs := py_range (length values) in
    let calls := calls ++ [Plot xs values Solid label] in
    config ← py_attr_get summary "config" (JDict []);
    kind ← py_attr_get config "kind" (JStr "unknown");
    at_step ← py_attr_get config "atStep" (JInt 0);
    Ok (calls, title_parts ++ [(label, kind, at_step)]).

(** Lines 297 to 300: the summaries that are found and are truthy, with
    the labels of their sets. [read_json path] is the content of the file
    at [path], [None] when there is no such file. *)
Definition load_summaries (read_json : string -> option json)
    (sets : list (string * option string * option string))
    : list (string * json) :=
  flat_map
    (fun '(label, summary_path, trials_path) =>
       match summary_path with
       | Some path =>
           if String.eqb path "" then []
           else
             match read_json path with
             | Some summary => if py_truthy summary then [(label, summary)] else []
             | None => []
             end
       | None => []
       end)
    sets.

(** The similarity curves of [plot_perturbation_sets] (lines 305 to 318):
    the calls to [ax.plot] of the first figure and the [title_parts]. The
    shading, the decorations and the two other figures are left out. *)
Definition plot_perturbation_sets (read_json : string -> option json)
    (sets : list (string * option string * option string))
    : result (list ax_call * list title_part) :=
  let summaries := load_summaries read_json sets in
  match summaries with
  | [] => Ok ([], [])
  | _ :: _ => for_each plot_similarity summaries ([], [])
  end.

(** *** Labels of perturbation sets *)

(** [p.rfind('/')]: the index of the last slash, [-1] when there is none. *)
Fixpoint rfind_slash_from (p : string) (i last : Z) : Z :=
  match p with
  | EmptyString => last
  | String c p' =>
      rfind_slash_from p' (i + 1) (if Ascii.eqb c "/" then i else last)
  end.

Definition rfind_slash (p : string) : Z := rfind_slash_from p 0 (-1).

(** [p[:n]] and [p[n:]] for [0 <= n]. *)
Fixpoint str_take (n : nat) (p : string) : string :=
  match n, p with
  | Datatypes.S n', String c p' => String c (str_take n' p')
  | _, _ => EmptyString
  end.

Fixpoint str_drop (n : nat) (p : string) : string :=
  match n, p with
  | Datatypes.S n', String _ p' => str_drop n' p'
  | _, _ => p
  end.

(** [head.rstrip('/')] *)
Fixpoint rstrip_slash (p : string) : string :=
  match p with
  | EmptyString => EmptyString
  | String c p' =>
      match rstrip_slash p' with
      | EmptyString => if Ascii.eqb c "/" then EmptyString else String c EmptyString
      | r => String c r
      end
  end.

(** [head == '/' * len(head)] *)
Fixpoint all_slashes (p : string) : bool :=
  match p with
  | EmptyString => true
  | String c p' => Ascii.eqb c "/" && all_slashes p'
  end.

(** [os.path.basename] and [os.path.dirname] of [posixpath]. *)
Definition basename (p : string) : string :=
  str_drop (Z.to_nat (rfind_slash p + 1)) p.

Definition dirname (p : string) : string :=
  let head := str_take (Z.to_nat (rfind_slash p + 1)) p in
  if negb (String.eqb head "") && negb (all_slashes head)
  then rstrip_slash head else head.

(** [a or b] on strings: the empty string is falsy. *)
Definition str_or (a : string) (b : string) : string :=
  if String.eqb a "" then b else a.

Definition _derive_label (path : option string) (fallback : string) : string :=
  match path with
  | None => fallback
  | Some path =>
      if String.eqb path "" then fallback
      else
        let parent := basename (dirname path) in
        if String.eqb parent "perturb"
        then str_or (basename (dirname (dirname path))) fallback
        else str_or parent fallback
  end.

(** [entry.split(',')] *)
Fixpoint split_commas (entry : string) : list string :=
  match entry with
  | EmptyString => [EmptyString]
  | String c entry' =>
      if Ascii.eqb c ","
      then EmptyString :: split_commas entry'
      else
        match split_commas entry' with
        | part :: parts => String c part :: parts
        | [] => [String c EmptyString]
        end
  end.

(** The list an option given with [action='append'] expands to: nothing
    when the option is absent, and no empty part. *)
Definition expand_option (arg : option (list string)) : list string :=
  match arg with
  | None => []
  | Some entries =>
      flat_map
        (fun entry =>
           List.filter (fun part => negb (String.eqb part ""))
             (split_commas entry))
        entries
  end.

(** [summary_path or trials_path] *)
Definition path_or (a b : option string) : option string :=
  match a with
  | Some s => if String.eqb s "" then b else a
  | None => b
  end.

(** Line 427: the label given for the set, or the derived one. *)
Definition perturb_label (summaries trials labels : list string) (idx : nat)
    : string :=
  match labels !! idx with
  | Some label => label
  | None =>
      _derive_label (path_or (summaries !! idx) (trials !! idx))
        ("set-" +:+ pretty (idx + 1)%nat)
  end.

(** Body of [for idx in range(max_len)] in [main]. *)
Definition perturb_set_at (summaries trials labels : list string) (idx : nat)
    : list (string * option string * option string) :=
  let summary_path := summaries !! idx in
  let trials_path := trials !! idx in
  let label := perturb_label summaries trials labels idx in
  match summary_path, trials_path with
  | None, None => []
  | _, _ => [(label, summary_path, trials_path)]
  end.

(** The [sets] that [main] builds for [--kind perturb]. *)
Definition perturb_sets (perturbSummary perturbTrials perturbLabel
    : option (list string)) : list (string * option string * option string) :=
  let summaries := expand_option perturbSummary in
  let trials := expand_option perturbTrials in
  let labels := expand_option perturbLabel in
  let max_len :=
    Nat.max (Nat.max (Nat.max (length summaries) (length trials)) (length labels)) 1 in
  flat_map (perturb_set_at summaries trials labels) (seq 0 max_len).

End WithStrParser.

(** *** The rest of the accuracy-history and perturbation plots *)

Section WithBuiltins.

(** Python's [float(s)] and [int(s)] for a [str] ([None] where they raise
    [ValueError]), and [str(x)] for a float and for a list or dict. *)
Variable float_of_str : string -> option float.
Variable int_of_str : string -> option Z.
Variable float_str : float -> string.
Variable container_str : json -> string.

(** [f"{v}"] for a loaded value. *)
Definition py_str (v : json) : string :=
  match v with
  | JNull => "None"
  | JBool b => if b then "True" else "False"
  | JInt z => pretty z
  | JFloat f => float_str f
  | JStr s => s
  | JList _ | JDict _ => container_str v
  end.

(** [v or {}] *)
Definition or_empty_dict (v : json) : json :=
  if py_truthy v then v else JDict [].

(** [(config.get(key) or {}) if isinstance(config, Mapping) else {}] *)
Definition config_section (config : json) (key : string) : json :=
  match config with
  | JDict d => or_empty_dict (py_get d key)
  | _ => JDict []
  end.

(** The list [parts] of [_build_title], before the empty entries are
    dropped: [None] stands for Python's [None]. *)
Definition title_segments (topology : string) (config : json)
    (phase_label : string) : result (list (option string)) :=
  let controller := config_section config "controller" in
  mode ← py_attr_get controller "mode" (JStr "standard");
  let phase_bc_cfg := config_section config "phaseBCConfig" in
  gate ← py_attr_get phase_bc_cfg "sustainGate" JNull;
  sustain ← py_attr_get (or_empty_dict gate) "enabled" (JBool false);
  let curriculum := config_section config "curriculum" in
  phase_bc ←
    match curriculum with
    | JDict _ => py_attr_get curriculum "phaseBC" (JDict [])
    | _ => Ok (JDict [])
    end;
  t_trans ← py_attr_get phase_bc "tTrans" JNull;
  tail_len ← py_attr_get phase_bc "tailLen" JNull;
  eval_window ← py_attr_get phase_bc_cfg "evalWindow" JNull;
  learn_window ← py_attr_get phase_bc_cfg "learnWindow" JNull;
  Ok [Some (topology +:+ " | ctrl=" +:+ py_str mode);
      Some ("sustain=" +:+ (if py_truthy sustain then "on" else "off"));
      match t_trans with JNull => None | _ => Some ("tTrans=" +:+ py_str t_trans) end;
      match tail_len with JNull => None | _ => Some ("tailLen=" +:+ py_str tail_len) end;
      if py_truthy eval_window then Some ("eval=" +:+ py_str eval_window) else None;
      if py_truthy learn_window then Some ("learn=" +:+ py_str learn_window) else None;
      Some phase_label].

(** [[p for p in parts if p]] *)
Definition truthy_parts (parts : list (option string)) : list string :=
  flat_map
    (fun p =>
       match p with
       | Some s => if String.eqb s "" then [] else [s]
       | None => []
       end)
    parts.

Definition _build_title (topology : string) (config : json)
    (phase_label : string) : result string :=
  parts ← title_segments topology config phase_label;
  Ok (String.concat " | " (truthy_parts parts)).

(** What [plot_run_history] does that can be seen: a figure, given by the
    calls that draw and save it, or a line printed. *)
Inductive output : Type :=
  | Figure (calls : list ax_call)
  | Print (line : string).

(** [phase.get('accHistory') if isinstance(phase, Mapping) else None] *)
Definition acc_history_of (phase : json) : json :=
  match phase with
  | JDict d => py_get d "accHistory"
  | _ => JNull
  end.

(** One phase of [plot_run_history] (lines 147 to 152 and 154 to 159);
    [report_missing] is [True] for phase C and [phase_b is not None] for
    phase B. *)
Definition plot_phase_history (letter : string) (phase : json)
    (report_missing : bool) (config : json) (suffix : string)
    (out_dir : string) (formats : list string) (topology : string)
    : result (list output) :=
  '(acc, note) ← _normalize_acc_history float_of_str (acc_history_of phase);
  match acc with
  | Some (item :: series) =>
      title ← _build_title topology config ("Phase " +:+ letter);
      calls ← _plot_history_series (item :: series) title
                 ("acc_history_phase" +:+ letter +:+ "_" +:+ suffix)
                 out_dir formats;
      Ok [Figure calls]
  | _ =>
      match note with
      | Some note =>
          if negb (String.eqb note "") && report_missing
          then Ok [Print ("[report_plot] Phase " +:+ letter
                          +:+ " history skipped (" +:+ note +:+ ")")]
          else Ok []
      | None => Ok []
      end
  end.

Definition plot_run_history (payload : json) (out_dir : string)
    (formats : list string) (topology : string) : result (list output) :=
  let config :=
    match payload with
    | JDict d => default (JDict []) (dict_get d "config")
    | _ => JDict []
    end in
  name ← py_attr_get config "topology" (JStr topology);
  counting ← py_attr_get config "useCountingPhase" JNull;
  let suffix :=
    py_str name +:+ "_"
    +:+ (if py_truthy counting then "countingOn" else "countingOff") in
  let phase_c := match payload with JDict d => py_get d "phaseC" | _ => JNull end in
  let phase_b := match payload with JDict d => py_get d "phaseB" | _ => JNull end in
  out_c ← plot_phase_history "C" phase_c true config suffix out_dir formats topology;
  out_b ← plot_phase_history "B" phase_b
             (match phase_b with JNull => false | _ => true end)
             config suffix out_dir formats topology;
  Ok (out_c ++ out_b).

(** *** Recovery rates, recovery steps and the perturbation window *)

(** [max(0.5, duration)]: [duration] when [duration > 0.5], which only
    numbers can be asked. *)
Definition max_half (duration : json) : result json :=
  match duration with
  | JInt z => Ok (if 1 <=? z then duration else JFloat 0.5)
  | JFloat f => Ok (if PrimFloat.ltb 0.5 f then duration else JFloat 0.5)
  | JBool b => Ok (if b then duration else JFloat 0.5)
  | _ => Raise TypeError
  end.

(** Lines 320 to 323: the right end of the shaded window, when there is
    one. *)
Definition perturb_window (summaries : list (string * json))
    : result (option json) :=
  match summaries with
  | [(_, summary)] =>
      config ← py_attr_get summary "config" (JDict []);
      duration ← py_attr_get config "durationSteps" (JInt 1);
      Some <$> max_half duration
  | _ => Ok None
  end.

(** Lines 336 to 343: the bars of the recovery-rate chart. *)
Definition recovery_rate_step (item : string * json)
    (st : list string * list float) : result (list string * list float) :=
  let (label, summary) := item in
  let (labels, rates) := st in
  metrics ← py_attr_get summary "metrics" (JDict []);
  recovery_rate ← py_attr_get metrics "recoveryRate" JNull;
  match recovery_rate with
  | JNull => Ok st
  | _ =>
      rate ← py_float float_of_str recovery_rate;
      Ok (labels ++ [label], rates ++ [rate])
  end.

Definition recovery_rates (summaries : list (string * json))
    : result (list string * list float) :=
  for_each recovery_rate_step summaries ([], []).

(** A row of [csv.DictReader]: a missing field reads as [None]. *)
Abbreviation csv_row := (list (string * option string)).

(** Lines 356 to 364: the recovery steps of the rows that have one. *)
Definition recovery_steps (trials : list csv_row) : list Z :=
  flat_map
    (fun row =>
       match dict_get row "recoverySteps" with
       | Some (Some raw) =>
           if String.eqb raw "" then []
           else match int_of_str raw with Some n => [n] | None => [] end
       | _ => []
       end)
    trials.

(** [min(20, max(5, len(set(recovery_steps))))] *)
Definition hist_bins (steps : list Z) : Z :=
  Z.min 20 (Z.max 5 (Z.of_nat (length (remove_dups steps)))).

(** Lines 301 to 303: the trials that are found and not empty. *)
Definition load_trials (read_csv : string -> option (list csv_row))
    (sets : list (string * option string * option string))
    : list (string * list csv_row) :=
  flat_map
    (fun '(label, summary_path, trials_path) =>
       match trials_path with
       | Some path =>
           if String.eqb path "" then []
           else
             match read_csv path with
             | Some (row :: rows) => [(label, row :: rows)]
             | _ => []
             end
       | None => []
       end)
    sets.

(** Lines 355 to 368: the histograms drawn, each with its data, its number
    of bins and its label. *)
Definition recovery_histograms (trials_sets : list (string * list csv_row))
    : list (list Z * Z * string) :=
  flat_map
    (fun '(label, trials) =>
       match recovery_steps trials with
       | [] => []
       | steps => [(steps, hist_bins steps, label)]
       end)
    trials_sets.

(** *** The list of formats *)

(** [c.isspace()] for a character given by its code point, below 256: tab
    to carriage return, the four separators, the space, next line and the
    no-break space. *)
Definition is_space (c : ascii) : bool :=
  let n := nat_of_ascii c in
  ((9 <=? n) && (n <=? 13) || (28 <=? n) && (n <=? 32)
   || (n =? 133) || (n =? 160))%nat.

(** [s.lstrip()], [s.rstrip()] and [s.strip()] *)
Fixpoint lstrip (s : string) : string :=
  match s with
  | EmptyString => EmptyString
  | String c s' => if is_space c then lstrip s' else s
  end.

Fixpoint rstrip (s : string) : string :=
  match s with
  | EmptyString => EmptyString
  | String c s' =>
      match rstrip s' with
      | EmptyString => if is_space c then EmptyString else String c EmptyString
      | r => String c r
      end
  end.

Definition strip (s : string) : string := rstrip (lstrip s).

(** [[fmt.strip() for fmt in formats.split(',') if fmt.strip()]] *)
Definition parse_formats (formats : string) : list string :=
  flat_map
    (fun fmt => if String.eqb (strip fmt) "" then [] else [strip fmt])
    (split_commas formats).

End WithBuiltins.
End ReportPlot.

(** ** Topology comparison *)

Module Topology.

Abbreviation matrix := (list (list float)).

Section WithRandom.

(** The state of NumPy's global generator and [np.random.normal(loc,
    scale)], which draws one sample and advances the state. *)
Variable rng : Type.
Variable np_random_normal : float -> float -> rng -> float * rng.

(** [np.arange(n)] and [np.repeat(a, repeats)] *)
Definition np_arange (n : Z) : list Z := map Z.of_nat (seq 0 (Z.to_nat n)).

(** A negative count raises [ValueError] (NumPy releases differ when the
    array is empty: some return it as it is, and the first index into it
    then raises [IndexError]). *)
Definition np_repeat (a : list Z) (repeats : Z) : result (list Z) :=
  if repeats <? 0 then Raise ValueError
  else Ok (flat_map (replicate (Z.to_nat repeats)) a).

(** [np.zeros((n, n))]: a negative dimension raises [ValueError]. *)
Definition np_zeros (n : Z) : result matrix :=
  if n <? 0 then Raise ValueError
  else Ok (replicate (Z.to_nat n) (replicate (Z.to_nat n) Float.zero)).

(** [a[i]] for [0 <= i]. *)
Definition np_getitem (a : list Z) (i : nat) : result Z :=
  match a !! i with
  | Some v => Ok v
  | None => Raise IndexError
  end.

(** [weights[i, j] = w] for [0 <= i, j]. *)
Definition np_setitem (weights : matrix) (i j : nat) (w : float) : result matrix :=
  match weights !! i with
  | Some row =>
      if (j <? length row)%nat then Ok (<[i := <[j := w]> row]> weights)
      else Raise IndexError
  | None => Raise IndexError
  end.

(** The distance of lines 24 to 33. *)
Definition digit_distance (topology_type : string) (n_digits digit_i digit_j : Z) : Z :=
  let raw_dist := Z.abs (digit_i - digit_j) in
  if String.eqb topology_type "Ring"
  then Z.min raw_dist (n_digits - raw_dist)
  else raw_dist.

(** 0.1, the scale of the noise, as the nearest binary64. *)
Definition noise_scale : float := 0x1.999999999999ap-4%float.

(** Body of the inner loop. *)
Definition set_weight (topology_type : string) (n_digits : Z)
    (neuron_preferences : list Z) (i j : nat) (st : matrix * rng)
    : result (matrix * rng) :=
  let (weights, g) := st in
  digit_i ← np_getitem neuron_preferences i;
  digit_j ← np_getitem neuron_preferences j;
  let dist := digit_distance topology_type n_digits digit_i digit_j in
  if dist =? 0 then
    let (noise, g) := np_random_normal Float.zero noise_scale g in
    weights ← np_setitem weights i j (Float.one + noise)%float;
    Ok (weights, g)
  else if dist =? 1 then
    let (noise, g) := np_random_normal Float.zero noise_scale g in
    weights ← np_setitem weights i j (Float.half + noise)%float;
    Ok (weights, g)
  else
    weights ← np_setitem weights i j Float.zero;
    Ok (weights, g).

Definition generate_topology (topology_type : string) (n_neurons n_digits : Z)
    (g : rng) : result (matrix * list Z * rng) :=
  if n_digits =? 0 then Raise ZeroDivisionError
  else
    let neurons_per_digit := n_neurons / n_digits in
    weights ← np_zeros n_neurons;
    neuron_preferences ← np_repeat (np_arange n_digits) neurons_per_digit;
    let n := Z.to_nat n_neurons in
    '(weights, g) ←
      for_range
        (fun i => for_range (set_weight topology_type n_digits neuron_preferences i) 0 n)
        0 n (weights, g);
    Ok (weights, neuron_preferences, g).

End WithRandom.

(** *** The graph of the strong connections *)

(** An undirected [nx.Graph]: the nodes in the order they were added, and
    the weight of every edge, kept under both of its orientations. *)
Record graph : Type := Graph {
  nodes : list nat;
  adj : gmap (nat * nat) float;
}.

(** [G.add_node(i)]: a node that is there stays where it is. *)
Definition add_node (G : graph) (i : nat) : graph :=
  if decide (i ∈ nodes G) then G else Graph (nodes G ++ [i]) (adj G).

(** [G.add_edge(u, v, weight=w)]: the end points are added when they are
    missing, and the weight replaces the one the edge had. *)
Definition add_edge (G : graph) (u v : nat) (w : float) : graph :=
  let G := add_node (add_node G u) v in
  Graph (nodes G) (<[(v, u) := w]> (<[(u, v) := w]> (adj G))).

(** 0.4, the threshold of the edges, as the nearest binary64. *)
Definition threshold : float := 0x1.999999999999ap-2%float.

(** The places that [np.where(weights > threshold)] returns, as the loop
    zips them, each with the weight found there: row by row, and by column
    within a row. *)
Definition strong_entries (weights : matrix) : list (nat * nat * float) :=
  mjoin (imap
    (fun r row =>
       mjoin (imap
         (fun c w => if PrimFloat.ltb threshold w then [(r, c, w)] else [])
         row))
    weights).

(** Body of [for r, c in zip(rows, cols)]. *)
Definition connect (G : graph) (entry : nat * nat * float) : graph :=
  let '(r, c, w) := entry in
  if decide (r = c) then G else add_edge G r c w.

(** The graph that [plot_force_directed_graph] lays out (lines 70 to 81). *)
Definition build_graph (weights : matrix) (labels : list Z) : result graph :=
  G ← for_range
         (fun i G => digit ← np_getitem labels i; Ok (add_node G i))
         0 (length weights) (Graph [] ∅);
  Ok (fold_left connect (strong_entries weights) G).

(** [np.unique(labels)]: the values in increasing order, each once. *)
Fixpoint insert_sorted (x : Z) (l : list Z) : list Z :=
  match l with
  | [] => [x]
  | y :: l' => if x <=? y then x :: l else y :: insert_sorted x l'
  end.

Definition insertion_sort (l : list Z) : list Z := fold_right insert_sorted [] l.

Fixpoint dedup_adjacent (l : list Z) : list Z :=
  match l with
  | x :: l' =>
      match l' with
      | y :: _ => if x =? y then dedup_adjacent l' else x :: dedup_adjacent l'
      | [] => [x]
      end
  | [] => []
  end.

Definition np_unique (l : list Z) : list Z := dedup_adjacent (insertion_sort l).

(** The labels of the legend (lines 98 to 101): [f'{d}'] for each digit of
    [np.unique(labels)]. *)
Definition legend_labels (labels : list Z) : list string :=
  map pretty (np_unique labels).

End Topology.

(** ** Predicates used to state the properties *)

(** A JSON number and the float that [float()] makes of it. *)
Definition json_number (v : json) (f : float) : Prop :=
  v = JFloat f \/ exists z, v = JInt z /\ Float.of_int z = Ok f.

Definition is_json_list (v : json) : Prop := exists l, v = JList l.

(** The calls one series contributes. *)
Definition series_calls (item : string * list float)
    (calls : list ReportPlot.ax_call) : Prop :=
  let (label, values) := item in
  match values with
  | [] => calls = []
  | _ :: _ =>
      let xs := ReportPlot.py_range (length values) in
      if decide (10 <= length values)%nat then
        exists ys,
          ReportPlot._smooth values (ReportPlot.smooth_window (length values)) = Ok ys /\
          calls = [ReportPlot.Plot xs values ReportPlot.Solid label;
                   ReportPlot.Plot xs ys ReportPlot.Dashed (label +:+ " (smoothed)")]
      else calls = [ReportPlot.Plot xs values ReportPlot.Solid label]
  end.

(** An item of a similarity list and the float plotted for it: NaN for
    [null], the number itself otherwise. *)
Definition null_or_number (v : json) (f : float) : Prop :=
  (v = JNull /\ f = Float.nan) \/ json_number v f.

(** The entry of a matrix at row [r] and column [c]. *)
Definition mat_get (m : list (list float)) (r c : nat) : option float :=
  m !! r ≫= fun row => row !! c.

(** The wrap-around distance between two digits on a ring of [n]. *)
Definition modular_distance (n a b : Z) : Z :=
  Z.min ((a - b) mod n) ((b - a) mod n).

Section TopologyPredicates.

Variable rng : Type.
Variable np_random_normal : float -> float -> rng -> float * rng.

(** [w] is [base] plus one draw of the noise. *)
Definition noisy (base w : float) : Prop :=
  exists g : rng,
    w = (base + (np_random_normal Float.zero Topology.noise_scale g).1)%float.

(** The weight that a pair of neurons at digit distance [dist] gets. *)
Definition weight_class (dist : Z) (w : float) : Prop :=
  (dist = 0 -> noisy Float.one w) /\
  (dist = 1 -> noisy Float.half w) /\
  (dist <> 0 -> dist <> 1 -> w = Float.zero).

(** Entry [(r, c)] of [weights] has been set as its digit distance asks. *)
Definition weight_set (topology_type : string) (n_digits : Z)
    (neuron_preferences : list Z) (weights : list (list float)) (r c : nat) : Prop :=
  exists digit_r digit_c w,
    neuron_preferences !! r = Some digit_r /\
    neuron_preferences !! c = Some digit_c /\
    mat_get weights r c = Some w /\
    weight_class (Topology.digit_distance topology_type n_digits digit_r digit_c) w.

(** [weights] is an [n] by [n] matrix. *)
Definition square (n : nat) (weights : list (list float)) : Prop :=
  length weights = n /\ Forall (fun row => length row = n) weights.

(** The entries the loops have passed when they stand at row [i] and
    column [j]. *)
Definition passed (i j r c : nat) : Prop :=
  (r < i)%nat \/ (r = i /\ (c < j)%nat).

End TopologyPredicates.

(** A path component: no slash in it. *)
Fixpoint slash_free (s : string) : bool :=
  match s with
  | EmptyString => true
  | String c s' => negb (Ascii.eqb c "/") && slash_free s'
  end.

(** ** Inputs for running the model *)

#[local] Set Warnings "-inexact-float".

(** A parser for which no string is a number. *)
Definition no_str_float : string -> option float := fun _ => None.

(** A deterministic stand-in for NumPy's generator: the state counts the
    draws, and draw number [k] is [loc + scale * k]. *)
Definition counting_normal (loc scale : float) (g : nat) : float * nat :=
  ((loc + scale * Float.of_Z (Z.of_nat g))%float, Datatypes.S g).

(** The summary of the specification's example, and a file system that
    holds it. *)
Definition example_mean : list json :=
  [JFloat 1.0; JFloat 0.8; JNull; JFloat 0.6].

Definition example_summary_path : string :=
  "runs/ring/perturb/perturb_summary.json".

Definition example_read_json (path : string) : option json :=
  if String.eqb path example_summary_path
  then Some (JDict [("similarityByOffset", JDict [("mean", JList example_mean)]);
                    ("config", JDict [("kind", JStr "noise"); ("atStep", JInt 5)])])
  else None.

(** ** Predicates for further properties *)

(** A part of a comma-separated list: no comma in it. *)
Fixpoint comma_free (s : string) : bool :=
  match s with
  | EmptyString => true
  | String c s' => negb (Ascii.eqb c ",") && comma_free s'
  end.

(** A call that writes the figure out. *)
Definition is_save (c : ReportPlot.ax_call) : bool :=
  match c with
  | ReportPlot.SaveFigure _ _ _ => true
  | _ => false
  end.

(** The weight from [u] to [v] is above the threshold of the edges. *)
Definition strong (weights : list (list float)) (u v : nat) : Prop :=
  exists w, mat_get weights u v = Some w /\
            PrimFloat.ltb Topology.threshold w = true.

(** A JSON number that is at least 0.5. *)
Definition at_least_half (v : json) : Prop :=
  match v with
  | JInt z => 1 <= z
  | JFloat f => PrimFloat.leb 0.5 f = true
  | JBool b => b = true
  | _ => False
  end.

(** ** Further inputs for running the model *)

(** Stand-ins for [str(x)] of a float and of a list or dict. *)
Definition plain_float_str : float -> string := fun _ => "0.5".
Definition plain_container_str : json -> string := fun _ => "[]".

(** [int(s)] for the strings that are plain decimal numerals. *)
Fixpoint decimal_digits (s : string) (acc : Z) : option Z :=
  match s with
  | EmptyString => Some acc
  | String c s' =>
      match Ascii.is_nat c with
      | Some d => decimal_digits s' (10 * acc + Z.of_nat d)
      | None => None
      end
  end.

Definition decimal_of_str (s : string) : option Z :=
  match s with
  | EmptyString => None
  | _ => decimal_digits s 0
  end.

(** Trials of one condition: a row with a step count, a row with an empty
    field and a row without the field. *)
Definition example_trials : list (list (string * option string)) :=
  [[("trial", Some "0"); ("recoverySteps", Some "3")];
   [("trial", Some "1"); ("recoverySteps", Some "")];
   [("trial", Some "2"); ("recoverySteps", None)]].

(** A small weight matrix: strong from neuron 0 to neuron 1 only. *)
Definition example_weights : list (list float) :=
  [[1; 0.5]; [0.25; 1]]%float.

(** ** Strings *)

Lemma str_app_nil_l (s : string) : "" +:+ s = s.
Proof. reflexivity. Qed.

Lemma str_app_cons (c : ascii) (s t : string) :
  String c s +:+ t = String c (s +:+ t).
Proof. reflexivity. Qed.

Lemma str_app_nil_r (s : string) : s +:+ "" = s.
Proof. induction s as [| c s IH]; [done |]. by rewrite str_app_cons, IH. Qed.

Lemma str_app_assoc (s t u : string) : (s +:+ t) +:+ u = s +:+ (t +:+ u).
Proof.
  induction s as [| c s IH]; [done |]. by rewrite !str_app_cons, IH.
Qed.

Lemma str_length_app (s t : string) :
  String.length (s +:+ t) = (String.length s + String.length t)%nat.
Proof.
  induction s as [| c s IH]; [done |]. rewrite str_app_cons. cbn. by rewrite IH.
Qed.

Lemma str_app_inv_r (s t u : string) : s +:+ u = t +:+ u -> s = t.
Proof.
  revert t. induction s as [| c s IH]; intros [| c' t] Heq; [done | | |].
  - apply (f_equal String.length) in Heq.
    rewrite str_app_nil_l, str_length_app in Heq. cbn in Heq. lia.
  - apply (f_equal String.length) in Heq.
    rewrite str_app_nil_l, str_length_app in Heq. cbn in Heq. lia.
  - rewrite !str_app_cons in Heq. injection Heq as -> Heq. f_equal. by apply IH.
Qed.

(** ** Properties of [_normalize_acc_history] *)

Section NormalizeFacts.

Variable float_of_str : string -> option float.

Abbreviation py_float := (ReportPlot.py_float float_of_str).
Abbreviation _normalize_acc_history := (ReportPlot._normalize_acc_history float_of_str).
Abbreviation collect_key := (ReportPlot.collect_key float_of_str).

Lemma py_float_number v f : json_number v f -> py_float v = Ok f.
Proof.
  intros [-> | (z & -> & Hz)]; [reflexivity | exact Hz].
Qed.

Lemma traverse_numbers l fs :
  Forall2 json_number l fs -> traverse py_float l = Ok fs.
Proof.
  induction 1 as [| v f l fs Hv _ IH]; [reflexivity |].
  cbn [traverse]. rewrite (py_float_number _ _ Hv), IH. reflexivity.
Qed.

(** C2: a flat list of numbers normalises to the single series
    ['readout'] holding the same numbers, as floats, in the same order,
    and to no diagnostic. *)
Theorem normalize_flat_sequence (l : list json) (fs : list float) :
  Forall2 json_number l fs ->
  _normalize_acc_history (JList l) = Ok (Some [("readout", fs)], None).
Proof.
  intros Hl. unfold ReportPlot._normalize_acc_history.
  rewrite (traverse_numbers _ _ Hl). reflexivity.
Qed.

(** C3: a mapping whose only key is ['samples'], bound to a list,
    normalises to exactly one series, ['readout'], that holds [float(v)]
    for each item [v] of the list in order, and to no diagnostic; nothing
    but [float()] raising on an item stops it. When the items are numbers
    the series holds those numbers. *)
Theorem normalize_samples_only (l : list json) :
  _normalize_acc_history (JDict [("samples", JList l)])
  = (fs ← traverse py_float l; Ok (Some [("readout", fs)], None))
  /\ forall fs : list float,
       Forall2 json_number l fs ->
       _normalize_acc_history (JDict [("samples", JList l)])
       = Ok (Some [("readout", fs)], None).
Proof.
  assert (Hrun : _normalize_acc_history (JDict [("samples", JList l)])
                 = (fs ← traverse py_float l; Ok (Some [("readout", fs)], None))).
  { unfold ReportPlot._normalize_acc_history. cbn.
    by destruct (traverse py_float l). }
  split; [exact Hrun |].
  intros fs Hl. rewrite Hrun, (traverse_numbers _ _ Hl). reflexivity.
Qed.

(** The diagnostic for an unrecognised mapping spells out every key. *)
Lemma concat_names sep (ks : list string) k :
  k ∈ ks -> exists pre post, String.concat sep ks = pre +:+ k +:+ post.
Proof.
  induction ks as [| k0 ks IH]; intros Hin; [by apply elem_of_nil in Hin |].
  apply elem_of_cons in Hin as [-> | Hin].
  - exists EmptyString. destruct ks as [| k1 ks].
    + exists EmptyString. cbn [String.concat].
      by rewrite str_app_nil_l, str_app_nil_r.
    + exists (sep +:+ String.concat sep (k1 :: ks)). reflexivity.
  - destruct (IH Hin) as (pre & post & Heq).
    destruct ks as [| k1 ks]; [by apply elem_of_nil in Hin |].
    exists (k0 +:+ sep +:+ pre), post.
    change (String.concat sep (k0 :: k1 :: ks))
      with (k0 +:+ sep +:+ String.concat sep (k1 :: ks)).
    rewrite Heq. by rewrite !str_app_assoc.
Qed.

Lemma collect_key_not_list d key series :
  ~ is_json_list (py_get d key) -> collect_key d key series = Ok series.
Proof.
  intros Hn. unfold ReportPlot.collect_key.
  destruct (py_get d key) eqn:E; try reflexivity.
  exfalso. apply Hn. by eexists.
Qed.

(** C4: a mapping in which none of ['readout'], ['proto'] and ['samples']
    is bound to a list normalises, without raising, to no data and to a
    diagnostic that spells out each key of the mapping. *)
Theorem normalize_unrecognized (d : list (string * json)) :
  ~ is_json_list (py_get d "readout") ->
  ~ is_json_list (py_get d "proto") ->
  ~ is_json_list (py_get d "samples") ->
  _normalize_acc_history (JDict d)
  = Ok (None, Some ("unknown keys: " +:+ String.concat ", " (dict_keys d)))
  /\ forall k, k ∈ dict_keys d ->
       exists pre post,
         "unknown keys: " +:+ String.concat ", " (dict_keys d)
         = pre +:+ k +:+ post.
Proof.
  intros Hr Hp Hs. split.
  - unfold ReportPlot._normalize_acc_history, ReportPlot.known_keys.
    cbn [for_each]. rewrite (collect_key_not_list _ _ _ Hr).
    rewrite (collect_key_not_list _ _ _ Hp). cbn.
    destruct (py_get d "samples") eqn:E; try reflexivity.
    exfalso. apply Hs. by eexists.
  - intros k Hk. destruct (concat_names ", " _ _ Hk) as (pre & post & Heq).
    exists ("unknown keys: " +:+ pre), post. rewrite Heq.
    by rewrite !str_app_assoc.
Qed.

(** What the loop over the recognised keys leaves in [series]. *)
Lemma collect_known_keys d series :
  for_each (collect_key d) ReportPlot.known_keys [] = Ok series ->
  (forall k fs, (k, fs) ∈ series ->
     (k = "readout" \/ k = "proto") /\
     exists l, py_get d k = JList l /\ traverse py_float l = Ok fs)
  /\ (forall k l, (k = "readout" \/ k = "proto") -> py_get d k = JList l ->
        exists fs, dict_get series k = Some fs).
Proof.
  unfold ReportPlot.known_keys. cbn [for_each].
  unfold ReportPlot.collect_key.
  destruct (py_get d "readout") as [| | | | | lr |] eqn:Er;
    destruct (py_get d "proto") as [| | | | | lp |] eqn:Ep; cbn;
    try (destruct (traverse py_float lr) as [fr |] eqn:Tr; cbn; [| done]);
    try (destruct (traverse py_float lp) as [fp |] eqn:Tp; cbn; [| done]);
    intros [= <-]; (split;
      [ intros k fs Hin;
        repeat (apply elem_of_cons in Hin as [[= -> ->] | Hin]; [by eauto |]);
        by apply elem_of_nil in Hin
      | intros k l [-> | ->] Hk; try congruence; cbn; by eauto ]).
Qed.

Lemma collect_known_keys_nonempty d series :
  is_json_list (py_get d "readout") \/ is_json_list (py_get d "proto") ->
  for_each (collect_key d) ReportPlot.known_keys [] = Ok series ->
  series <> [].
Proof.
  intros Hk Hs. destruct (collect_known_keys _ _ Hs) as [_ Hall].
  destruct Hk as [[l Hl] | [l Hl]].
  - destruct (Hall "readout" l (or_introl eq_refl) Hl) as [fs Hfs].
    intros ->. discriminate.
  - destruct (Hall "proto" l (or_intror eq_refl) Hl) as [fs Hfs].
    intros ->. discriminate.
Qed.

Lemma collect_key_ext d d' key series :
  py_get d' key = py_get d key ->
  collect_key d' key series = collect_key d key series.
Proof. unfold ReportPlot.collect_key. by intros ->. Qed.

(** C10: when ['readout'] or ['proto'] is bound to a list, the result
    consists of the series of exactly those recognised keys that are bound
    to a list, with no diagnostic, and it is the same whatever the mapping
    binds ['samples'] (or any other key) to. *)
Theorem normalize_known_keys_ignore_samples (d d' : list (string * json)) :
  is_json_list (py_get d "readout") \/ is_json_list (py_get d "proto") ->
  py_get d' "readout" = py_get d "readout" ->
  py_get d' "proto" = py_get d "proto" ->
  _normalize_acc_history (JDict d') = _normalize_acc_history (JDict d)
  /\ forall out note,
       _normalize_acc_history (JDict d) = Ok (out, note) ->
       note = None /\
       exists series,
         out = Some series /\
         (forall k fs, (k, fs) ∈ series ->
            (k = "readout" \/ k = "proto") /\
            exists l, py_get d k = JList l /\ traverse py_float l = Ok fs) /\
         (forall k l, (k = "readout" \/ k = "proto") -> py_get d k = JList l ->
            exists fs, dict_get series k = Some fs).
Proof.
  intros Hk Hr Hp.
  assert (Hloop : for_each (collect_key d') ReportPlot.known_keys []
                  = for_each (collect_key d) ReportPlot.known_keys []).
  { unfold ReportPlot.known_keys. cbn [for_each].
    rewrite (collect_key_ext d d' "readout") by done.
    destruct (collect_key d "readout" []); [| done].
    by rewrite (collect_key_ext d d' "proto") by done. }
  unfold ReportPlot._normalize_acc_history. rewrite Hloop.
  destruct (for_each (collect_key d) ReportPlot.known_keys []) as [series |] eqn:E;
    cbn; [| split; [done | intros ? ? [=]]].
  pose proof (collect_known_keys_nonempty _ _ Hk E) as Hne.
  destruct series as [| item series]; [done |]. cbn.
  split; [done |]. intros out note [= <- <-]. split; [done |].
  eexists. split; [done |]. by apply collect_known_keys.
Qed.

End NormalizeFacts.

(** ** Properties of smoothing and of the accuracy-history plot *)

Section SmoothFacts.

Import ReportPlot.

(** C5: a series of fewer than three values is returned as it is,
    whatever the window. *)
Theorem smooth_short_identity (values : list float) (window : Z) :
  (length values < 3)%nat -> _smooth values window = Ok values.
Proof.
  intros Hlen. unfold _smooth.
  destruct (Z.ltb_spec (Z.of_nat (length values)) 3) as [_ | Hge]; [done | lia].
Qed.

Lemma length_boxcar (window : Z) : length (boxcar window) = Z.to_nat window.
Proof. unfold boxcar. by rewrite length_replicate. Qed.

(** The convolution with a kernel that is not longer than the signal
    returns, and returns as many values as the signal has. *)
Lemma convolve_same_length (a v : list float) :
  (0 < length v <= length a)%nat ->
  exists ys, np_convolve_same a v = Ok ys /\ length ys = length a.
Proof.
  intros [Hv Hle]. unfold np_convolve_same.
  destruct (Nat.ltb_spec (length a) (length v)) as [Hlt | _]; [lia |].
  destruct a as [| a0 a]; [cbn in *; lia |].
  destruct v as [| v0 v]; [cbn in *; lia |].
  eexists. split; [reflexivity |].
  by rewrite length_map, length_seq.
Qed.

Lemma smooth_window_bounds (n : nat) :
  (10 <= n)%nat -> 3 <= smooth_window n <= 25 /\ smooth_window n <= Z.of_nat n.
Proof.
  intros Hn. unfold smooth_window.
  assert (0 <= Z.of_nat n / 8 <= Z.of_nat n).
  { split; [apply Z.div_pos; lia |]. apply Z.div_le_upper_bound; lia. }
  lia.
Qed.

(** With ten points or more the overlay is a true moving average: the
    early return of [_smooth] is not taken. *)
Lemma smooth_overlay (values : list float) :
  (10 <= length values)%nat ->
  exists ys,
    _smooth values (smooth_window (length values)) = Ok ys /\
    np_convolve_same values (boxcar (smooth_window (length values))) = Ok ys /\
    length ys = length values.
Proof.
  intros Hn. destruct (smooth_window_bounds _ Hn) as [[Hlo Hhi] Hle].
  destruct (convolve_same_length values (boxcar (smooth_window (length values))))
    as (ys & Hys & Hlen).
  { rewrite length_boxcar. lia. }
  exists ys. split; [| done]. unfold _smooth.
  destruct (Z.ltb_spec (Z.of_nat (length values)) 3); [lia |].
  destruct (Z.leb_spec (smooth_window (length values)) 1); [lia |]. done.
Qed.

Lemma plot_one_series_calls item calls0 :
  exists calls,
    plot_one_series item calls0 = Ok (calls0 ++ calls) /\ series_calls item calls.
Proof.
  destruct item as [label values]. unfold plot_one_series, series_calls.
  destruct values as [| v values]; [exists []; by rewrite app_nil_r |].
  set (vs := v :: values).
  destruct (decide (10 <= length vs)%nat) as [Hn | Hn].
  - destruct (Z.leb_spec 10 (Z.of_nat (length vs))); [| lia].
    destruct (smooth_overlay vs Hn) as (ys & Hys & _).
    rewrite Hys. cbn. eexists. split; [by rewrite <- app_assoc |]. by eexists.
  - destruct (Z.leb_spec 10 (Z.of_nat (length vs))); [lia |].
    by eexists.
Qed.

Lemma for_each_series_calls series calls0 :
  exists calls,
    for_each plot_one_series series calls0 = Ok (calls0 ++ calls) /\
    forall c, c ∈ calls <->
      exists item cs, item ∈ series /\ series_calls item cs /\ c ∈ cs.
Proof.
  revert calls0. induction series as [| item series IH]; intros calls0.
  - exists []. split; [by rewrite app_nil_r |].
    intros c. split; [by intros ?%elem_of_nil |].
    by intros (? & ? & ?%elem_of_nil & _).
  - destruct (plot_one_series_calls item calls0) as (cs & Hcs & Hitem).
    destruct (IH (calls0 ++ cs)) as (rest & Hrest & Hmem).
    exists (cs ++ rest). cbn [for_each]. rewrite Hcs, Hrest.
    split; [by rewrite app_assoc |].
    intros c. rewrite elem_of_app, Hmem. split.
    + intros [Hc | (item' & cs' & Hin & Hs & Hc)].
      * exists item, cs. by rewrite elem_of_cons; eauto.
      * exists item', cs'. by rewrite elem_of_cons; eauto.
    + intros (item' & cs' & Hin & Hs & Hc).
      apply elem_of_cons in Hin as [-> | Hin]; [| by eauto 8].
      left. destruct item as [label values]. unfold series_calls in *.
      destruct values; simpl in Hitem, Hs; [by subst |].
      destruct (decide _); [| by subst].
      destruct Hitem as (ys & Hys & ->), Hs as (ys' & Hys' & ->).
      by assert (ys' = ys) as -> by congruence.
Qed.

Lemma dict_keys_unique {V : Type} (d : list (string * V)) k v v' :
  NoDup (dict_keys d) -> (k, v) ∈ d -> (k, v') ∈ d -> v = v'.
Proof.
  unfold dict_keys. induction d as [| [k0 v0] d IH]; cbn; intros Hnd Hv Hv'.
  - by apply elem_of_nil in Hv.
  - apply NoDup_cons in Hnd as [Hk0 Hnd].
    apply elem_of_cons in Hv as [Hv | Hv];
      apply elem_of_cons in Hv' as [Hv' | Hv']; simplify_eq; [done | | | by eauto].
    + exfalso. apply Hk0. apply list_elem_of_fmap. by exists (k0, v').
    + exfalso. apply Hk0. apply list_elem_of_fmap. by exists (k0, v).
Qed.

(** The decorations of the figure add no curve. *)
Lemma history_plot_calls series title base out_dir formats :
  exists curves calls,
    for_each plot_one_series series [] = Ok curves /\
    _plot_history_series series title base out_dir formats = Ok calls /\
    forall xs ys style label,
      Plot xs ys style label ∈ calls <-> Plot xs ys style label ∈ curves.
Proof.
  destruct (for_each_series_calls series []) as (curves & Hloop & _).
  rewrite app_nil_l in Hloop. unfold _plot_history_series. rewrite Hloop.
  exists curves.
  destruct (1 <? length (dict_keys series))%nat; cbn;
    (eexists; split; [done |]; split; [done |]);
    intros xs ys style label; (split; intros H).
  all: try (repeat (apply elem_of_app; left); done).
  all: repeat (apply elem_of_app in H as [H | H]); try done.
  all: repeat (apply elem_of_cons in H as [H | H]; [discriminate H |]).
  all: by apply elem_of_nil in H.
Qed.

(** C8: in the accuracy-history plot a series gets a smoothed (dashed)
    overlay exactly when it has at least ten points, and the overlay is the
    boxcar moving average of the series with window
    [min(25, max(3, n // 8))], [n] the length of the series. *)
Theorem history_overlay_policy (series : series_map)
    (title base out_dir : string) (formats : list string)
    (label : string) (values : list float) :
  NoDup (dict_keys series) ->
  (label, values) ∈ series ->
  let n := length values in
  let window := Z.min 25 (Z.max 3 (Z.of_nat n / 8)) in
  exists calls,
    _plot_history_series series title base out_dir formats = Ok calls /\
    ((exists xs ys, Plot xs ys Dashed (label +:+ " (smoothed)") ∈ calls)
     <-> (10 <= n)%nat) /\
    (forall xs ys,
       Plot xs ys Dashed (label +:+ " (smoothed)") ∈ calls ->
       xs = py_range n /\
       _smooth values window = Ok ys /\
       np_convolve_same values (boxcar window) = Ok ys /\
       length ys = n).
Proof.
  intros Hnd Hin. cbv zeta.
  change (Z.min 25 (Z.max 3 (Z.of_nat (length values) / 8)))
    with (smooth_window (length values)).
  destruct (history_plot_calls series title base out_dir formats)
    as (curves & calls & Hloop & Hcalls & Hplots).
  destruct (for_each_series_calls series []) as (curves' & Hloop' & Hmem).
  rewrite app_nil_l, Hloop in Hloop'. injection Hloop' as <-.
  exists calls. split; [done |].
  assert (Hown : forall xs ys,
            Plot xs ys Dashed (label +:+ " (smoothed)") ∈ calls ->
            (10 <= length values)%nat /\ xs = py_range (length values) /\
            _smooth values (smooth_window (length values)) = Ok ys).
  { intros xs ys Hc.
    apply Hplots, Hmem in Hc as ([label' values'] & cs & Hi & Hs & Hc).
    unfold series_calls in Hs. destruct values' as [| v' values'].
    { subst cs. by apply elem_of_nil in Hc. }
    revert Hi Hs. generalize (v' :: values'). clear v' values'.
    intros vs Hi Hs.
    destruct (decide (10 <= length vs)%nat) as [Hn | Hn].
    - destruct Hs as (ys' & Hys' & ->).
      apply elem_of_cons in Hc as [Hc | Hc]; [discriminate Hc |].
      apply elem_of_cons in Hc as [Hc | Hc]; [| by apply elem_of_nil in Hc].
      injection Hc as -> -> Hl.
      apply str_app_inv_r in Hl as <-.
      by rewrite (dict_keys_unique _ _ _ _ Hnd Hin Hi).
    - subst cs. apply elem_of_cons in Hc as [Hc | Hc]; [discriminate Hc |].
      by apply elem_of_nil in Hc. }
  split; [split |].
  - intros (xs & ys & Hc). by apply Hown in Hc as [? _].
  - intros Hn. destruct (smooth_overlay values Hn) as (ys & Hys & _).
    exists (py_range (length values)), ys. apply Hplots, Hmem.
    exists (label, values),
      [Plot (py_range (length values)) values Solid label;
       Plot (py_range (length values)) ys Dashed (label +:+ " (smoothed)")].
    split; [done |]. split; [| by rewrite !elem_of_cons; auto].
    unfold series_calls. destruct values as [| v values]; [cbn in Hn; lia |].
    destruct (decide _) as [_ | Hn']; [by eexists | done].
  - intros xs ys Hc. destruct (Hown _ _ Hc) as (Hn & -> & Hys).
    destruct (smooth_overlay values Hn) as (ys' & Hys' & Hconv & Hlen).
    by assert (ys' = ys) as -> by congruence.
Qed.

End SmoothFacts.

(** ** Properties of [binned_stat] *)

Section BinnedFacts.

Import ReportPlot.

Lemma lookup_map {A B : Type} (f : A -> B) (l : list A) (i : nat) :
  map f l !! i = f <$> (l !! i).
Proof.
  revert i. induction l as [| a l IH]; intros [| i]; cbn; auto.
Qed.

Lemma mat_get_zeros (rows cols r c : nat) :
  (r < rows)%nat -> (c < cols)%nat ->
  mat_get (np_zeros rows cols) r c = Some Float.zero.
Proof.
  intros Hr Hc. unfold mat_get, np_zeros.
  rewrite lookup_replicate_2 by done. cbn. by rewrite lookup_replicate_2.
Qed.

Lemma np_index_nonneg (n : nat) (i : Z) (k : nat) :
  0 <= i -> np_index n i = Ok k -> k = Z.to_nat i.
Proof.
  intros Hi. unfold np_index.
  destruct ((0 <=? i) && (i <? Z.of_nat n)); [by intros [= <-] |].
  destruct (Z.ltb_spec i 0); [lia |]. by rewrite andb_false_r.
Qed.

(** An update at one entry leaves every other entry as it was. *)
Lemma mat_update_other f (i j : Z) (m m' : matrix) (r c : nat) :
  0 <= i -> 0 <= j ->
  mat_update f i j m = Ok m' ->
  ~ (i = Z.of_nat r /\ j = Z.of_nat c) ->
  mat_get m' r c = mat_get m r c.
Proof.
  intros Hi Hj. unfold mat_update.
  destruct (np_index (length m) i) as [ri |] eqn:Eri; cbn; [| done].
  apply np_index_nonneg in Eri as ->; [| done].
  destruct (m !! Z.to_nat i) as [row |] eqn:Erow; [| done].
  destruct (np_index (length row) j) as [cj |] eqn:Ecj; cbn; [| done].
  apply np_index_nonneg in Ecj as ->; [| done].
  intros [= <-] Hne. unfold mat_get.
  destruct (decide (r = Z.to_nat i)) as [-> | Hr].
  - rewrite list_lookup_insert_eq by (by eapply lookup_lt_Some).
    rewrite Erow. cbn. apply list_lookup_alter_ne. lia.
  - by rewrite list_lookup_insert_ne.
Qed.

Lemma bin_index_nonneg edges v (bins : nat) :
  (0 < bins)%nat -> 0 <= bin_index edges v bins.
Proof. unfold bin_index, np_clip. lia. Qed.

(** A cell that no sample falls in keeps a zero sum and a zero count
    through the accumulation loop. *)
Lemma accumulate_untouched x_edges y_edges (bins r c : nat) samples :
  (0 < bins)%nat ->
  Forall (fun '(xv, yv, v) =>
            ~ (bin_index y_edges yv bins = Z.of_nat r /\
               bin_index x_edges xv bins = Z.of_nat c)) samples ->
  forall grid counts grid' counts',
    for_each (accumulate x_edges y_edges bins) samples (grid, counts)
    = Ok (grid', counts') ->
    mat_get grid' r c = mat_get grid r c /\
    mat_get counts' r c = mat_get counts r c.
Proof.
  intros Hbins. induction 1 as [| [[xv yv] v] samples Hmiss _ IH];
    intros grid counts grid' counts'; cbn [for_each].
  - by intros [= <- <-].
  - unfold accumulate at 1.
    destruct (mat_update _ _ _ grid) as [grid1 |] eqn:Eg; cbn; [| done].
    destruct (mat_update _ _ _ counts) as [counts1 |] eqn:Ec; cbn; [| done].
    intros Hrest. apply IH in Hrest as [-> ->].
    split; (eapply mat_update_other; [| | eassumption | done]);
      by apply bin_index_nonneg.
Qed.

Lemma mat_get_div (grid counts : matrix) (r c : nat) (g n : float) :
  mat_get grid r c = Some g -> mat_get counts r c = Some n ->
  mat_get (mat_div grid (clamp_counts counts)) r c
  = Some (g / (if PrimFloat.eqb n 0 then Float.one else n))%float.
Proof.
  unfold mat_get, mat_div, clamp_counts. intros Hg Hn.
  rewrite lookup_zip_with, lookup_map.
  destruct (grid !! r) as [grow |]; [| done].
  destruct (counts !! r) as [crow |]; [| done]. cbn in *.
  rewrite lookup_zip_with, lookup_map, Hg, Hn. reflexivity.
Qed.

(** C6: in the heatmap that [binned_stat] returns, a cell of the grid that
    no sample falls in is exactly [0.0]: its sum stays [0.0], its count is
    raised from [0] to [1], and [0.0 / 1.0] is [0.0]. *)
Theorem binned_stat_empty_cell (x y values : list float) (bins : nat)
    (heat : matrix) (x_edges y_edges : list float) (r c : nat) :
  binned_stat x y values bins = Ok (heat, x_edges, y_edges) ->
  (r < bins)%nat -> (c < bins)%nat ->
  Forall (fun '(xv, yv, v) =>
            ~ (bin_index y_edges yv bins = Z.of_nat r /\
               bin_index x_edges xv bins = Z.of_nat c)) (zip3 x y values) ->
  mat_get heat r c = Some 0%float.
Proof.
  unfold binned_stat. intros Hrun Hr Hc Hmiss.
  destruct (np_min x) as [x_lo |]; cbn in Hrun; [| done].
  destruct (np_max x) as [x_hi |]; cbn in Hrun; [| done].
  destruct (np_min y) as [y_lo |]; cbn in Hrun; [| done].
  destruct (np_max y) as [y_hi |]; cbn in Hrun; [| done].
  destruct (for_each _ _ _) as [[grid counts] |] eqn:Eloop; cbn in Hrun; [| done].
  injection Hrun as <- <- <-.
  apply accumulate_untouched with (r := r) (c := c) in Eloop as [Hg Hn];
    [| lia | done].
  rewrite mat_get_zeros in Hg, Hn by done.
  rewrite (mat_get_div _ _ _ _ _ _ Hg Hn). reflexivity.
Qed.

End BinnedFacts.

(** ** Properties of the perturbation curves *)

Section PerturbFacts.

Import ReportPlot.

Variable float_of_str : string -> option float.

Abbreviation similarity_values := (ReportPlot.similarity_values float_of_str).
Abbreviation plot_similarity := (ReportPlot.plot_similarity float_of_str).
Abbreviation plot_perturbation_sets := (ReportPlot.plot_perturbation_sets float_of_str).

Lemma nan_or_float_item v f :
  null_or_number v f -> nan_or_float float_of_str v = Ok f.
Proof.
  intros [[-> ->] | Hn]; [reflexivity |].
  pose proof (py_float_number float_of_str _ _ Hn) as Hf.
  destruct Hn as [-> | (z & -> & _)]; exact Hf.
Qed.

Lemma similarity_values_list l fs :
  Forall2 null_or_number l fs -> similarity_values (JList l) = Ok fs.
Proof.
  unfold ReportPlot.similarity_values. cbn.
  induction 1 as [| v f l fs Hv _ IH]; [reflexivity |].
  cbn [traverse]. by rewrite (nan_or_float_item _ _ Hv), IH.
Qed.

(** A step of the loop over the summaries only appends to the calls. *)
Lemma plot_similarity_grows item st st' :
  plot_similarity item st = Ok st' -> exists cs, st'.1 = st.1 ++ cs.
Proof.
  destruct item as [label summary], st as [calls parts].
  unfold ReportPlot.plot_similarity.
  destruct (py_attr_get summary "similarityByOffset" _) as [by_offset |];
    cbn; [| done].
  destruct (py_attr_get by_offset _ _) as [similarity |]; cbn; [| done].
  destruct (py_truthy similarity); cbn.
  - destruct (ReportPlot.similarity_values _ _) as [values |]; cbn; [| done].
    destruct (py_attr_get summary "config" _) as [config |]; cbn; [| done].
    destruct (py_attr_get config "kind" _) as [kind |]; cbn; [| done].
    destruct (py_attr_get config "atStep" _) as [at_step |]; cbn; [| done].
    intros [= <-]. by eexists.
  - intros [= <-]. exists []. by rewrite app_nil_r.
Qed.

Lemma plot_similarity_loop_grows items st st' :
  for_each plot_similarity items st = Ok st' -> exists cs, st'.1 = st.1 ++ cs.
Proof.
  revert st. induction items as [| item items IH]; intros st; cbn [for_each].
  - intros [= <-]. exists []. by rewrite app_nil_r.
  - destruct (plot_similarity item st) as [st1 |] eqn:E1; [| done].
    intros Hrest. apply IH in Hrest as (cs2 & ->).
    apply plot_similarity_grows in E1 as (cs1 & ->).
    exists (cs1 ++ cs2). by rewrite app_assoc.
Qed.

(** In a run that returns, every summary had its step run, and what the
    step added to the calls is still there at the end. *)
Lemma plot_similarity_loop_step items item st st' :
  item ∈ items ->
  for_each plot_similarity items st = Ok st' ->
  exists st0 st1,
    plot_similarity item st0 = Ok st1 /\ forall c, c ∈ st1.1 -> c ∈ st'.1.
Proof.
  revert st. induction items as [| item0 items IH]; intros st Hin;
    [by apply elem_of_nil in Hin |].
  cbn [for_each].
  destruct (plot_similarity item0 st) as [st1 |] eqn:E1; [| done].
  intros Hrest. apply elem_of_cons in Hin as [-> | Hin].
  - exists st, st1. split; [done |].
    apply plot_similarity_loop_grows in Hrest as (cs & ->).
    intros c Hc. apply elem_of_app. by left.
  - by apply (IH st1).
Qed.

Lemma load_summaries_mem read_json sets label path trials_path summary :
  (label, Some path, trials_path) ∈ sets ->
  path <> "" ->
  read_json path = Some summary ->
  py_truthy summary = true ->
  (label, summary) ∈ load_summaries read_json sets.
Proof.
  intros Hin Hpath Hread Htrue. unfold load_summaries.
  apply list_elem_of_In, in_flat_map.
  exists (label, Some path, trials_path). split; [by apply list_elem_of_In |].
  cbn. destruct (String.eqb_spec path ""); [done |].
  rewrite Hread, Htrue. by left.
Qed.

(** C7: for a summary whose [similarityByOffset.mean] is a list of numbers
    and nulls, the values computed for the curve have NaN at the place of
    each null and the other values, as floats, at their places and in their
    order, and a run of [plot_perturbation_sets] that returns has plotted
    them under the label of the set. *)
Theorem perturbation_curve_nulls (read_json : string -> option json)
    (sets : list (string * option string * option string))
    (label path : string) (trials_path : option string)
    (summary by_offset : list (string * json))
    (l : list json) (fs : list float)
    (calls : list ax_call) (parts : list title_part) :
  (label, Some path, trials_path) ∈ sets ->
  path <> "" ->
  read_json path = Some (JDict summary) ->
  dict_get summary "similarityByOffset" = Some (JDict by_offset) ->
  dict_get by_offset "mean" = Some (JList l) ->
  l <> [] ->
  Forall2 null_or_number l fs ->
  plot_perturbation_sets read_json sets = Ok (calls, parts) ->
  similarity_values (JList l) = Ok fs /\
  length fs = length l /\
  Plot (py_range (length l)) fs Solid label ∈ calls.
Proof.
  intros Hin Hpath Hread Hby Hmean Hne Hl Hrun.
  split; [by apply similarity_values_list |].
  pose proof (Forall2_length _ _ _ Hl) as Hlen. split; [done |].
  assert (Htrue : py_truthy (JDict summary) = true).
  { destruct summary; [discriminate Hby | done]. }
  pose proof (load_summaries_mem _ _ _ _ _ _ Hin Hpath Hread Htrue) as Hmem.
  unfold ReportPlot.plot_perturbation_sets in Hrun.
  destruct (load_summaries read_json sets) as [| item items] eqn:Eload;
    [by apply elem_of_nil in Hmem |].
  destruct (plot_similarity_loop_step _ _ _ _ Hmem Hrun)
    as ([calls0 parts0] & st1 & Hstep & Hkeep).
  apply Hkeep. clear Hkeep Hrun.
  unfold ReportPlot.plot_similarity in Hstep. cbn in Hstep.
  rewrite Hby in Hstep. cbn in Hstep. rewrite Hmean in Hstep. cbn in Hstep.
  destruct l as [| v l]; [done |]. cbn [negb] in Hstep.
  change (traverse (nan_or_float float_of_str) (v :: l))
    with (similarity_values (JList (v :: l))) in Hstep.
  rewrite (similarity_values_list _ _ Hl) in Hstep. cbn in Hstep.
  destruct (default (JDict []) (dict_get summary "config")) as [| | | | | |cfg];
    cbn in Hstep; try done.
  injection Hstep as <-. cbn [fst]. rewrite <- Hlen.
  apply elem_of_app. right. by apply list_elem_of_singleton.
Qed.

End PerturbFacts.

(** ** Properties of the labels of perturbation sets *)

Section LabelFacts.

Import ReportPlot.

Lemma flat_map_singletons {A B : Type} (f : A -> list B) (g : A -> B) (l : list A) :
  (forall a, a ∈ l -> f a = [g a]) -> flat_map f l = map g l.
Proof.
  induction l as [| a l IH]; intros Hf; [done |]. cbn.
  rewrite (Hf a) by apply list_elem_of_here. cbn. f_equal.
  apply IH. intros b Hb. apply Hf. by apply list_elem_of_further.
Qed.

Lemma flat_map_nils {A B : Type} (f : A -> list B) (l : list A) :
  (forall a, a ∈ l -> f a = []) -> flat_map f l = [].
Proof.
  induction l as [| a l IH]; intros Hf; [done |]. cbn.
  rewrite (Hf a) by apply list_elem_of_here. cbn.
  apply IH. intros b Hb. apply Hf. by apply list_elem_of_further.
Qed.

(** No part that an option expands to is empty. *)
Lemma expand_option_nonempty (arg : option (list string)) (part : string) :
  part ∈ expand_option arg -> part <> "".
Proof.
  destruct arg as [entries |]; cbn; [| by intros ?%elem_of_nil].
  intros Hin%list_elem_of_In. apply in_flat_map in Hin as (entry & _ & Hin).
  apply filter_In in Hin as [_ Hne].
  by destruct (String.eqb_spec part "").
Qed.

(** The index-zipped sets: one per index below the longer of the two path
    lists, in order; a label alone makes no set. *)
Lemma perturb_sets_zipped (perturbSummary perturbTrials perturbLabel : option (list string)) :
  let summaries := expand_option perturbSummary in
  let trials := expand_option perturbTrials in
  let labels := expand_option perturbLabel in
  perturb_sets perturbSummary perturbTrials perturbLabel
  = map (fun idx => (perturb_label summaries trials labels idx,
                     summaries !! idx, trials !! idx))
      (seq 0 (Nat.max (length summaries) (length trials))).
Proof.
  intros summaries trials labels. unfold perturb_sets.
  fold summaries trials labels.
  set (m := Nat.max (length summaries) (length trials)).
  set (max_len := Nat.max (Nat.max m (length labels)) 1).
  replace max_len with (m + (max_len - m))%nat by lia.
  rewrite seq_app, flat_map_app, Nat.add_0_l.
  rewrite (flat_map_nils _ (seq m _)), app_nil_r.
  - apply flat_map_singletons. intros idx Hidx%list_elem_of_In%in_seq.
    unfold perturb_set_at.
    destruct (summaries !! idx) eqn:Es; [done |].
    destruct (trials !! idx) eqn:Et; [done |].
    apply lookup_ge_None in Es, Et. lia.
  - intros idx Hidx%list_elem_of_In%in_seq. unfold perturb_set_at.
    rewrite (proj2 (lookup_ge_None summaries idx)) by lia.
    by rewrite (proj2 (lookup_ge_None trials idx)) by lia.
Qed.

(** *** [posixpath] on paths made of components *)

Lemma rfind_slash_free (t : string) (i last : Z) :
  slash_free t = true -> rfind_slash_from t i last = last.
Proof.
  revert i last. induction t as [| c t IH]; intros i last; cbn; [done |].
  destruct (Ascii.eqb c "/"); cbn; [done |]. apply IH.
Qed.

Lemma rfind_slash_last (s t : string) (i last : Z) :
  slash_free t = true ->
  rfind_slash_from (s +:+ "/" +:+ t) i last = i + Z.of_nat (String.length s).
Proof.
  intros Ht. revert i last. induction s as [| c s IH]; intros i last.
  - rewrite str_app_nil_l, str_app_cons, str_app_nil_l. cbn.
    rewrite rfind_slash_free by done. lia.
  - rewrite str_app_cons. cbn [rfind_slash_from String.length].
    rewrite IH. lia.
Qed.

Lemma str_drop_app (s u : string) : str_drop (String.length s) (s +:+ u) = u.
Proof. induction s as [| c s IH]; cbn; [by destruct u | done]. Qed.

Lemma str_take_app (s u : string) : str_take (String.length s) (s +:+ u) = s.
Proof.
  induction s as [| c s IH]; cbn; [by destruct u |].
  rewrite str_app_cons. by rewrite IH.
Qed.

Lemma basename_join (s t : string) :
  slash_free t = true -> basename (s +:+ "/" +:+ t) = t.
Proof.
  intros Ht. unfold basename, rfind_slash. rewrite rfind_slash_last by done.
  replace (Z.to_nat (0 + Z.of_nat (String.length s) + 1))
    with (String.length (s +:+ "/")) by (rewrite str_length_app; cbn; lia).
  rewrite <- str_app_assoc. apply str_drop_app.
Qed.

Lemma basename_component (t : string) : slash_free t = true -> basename t = t.
Proof.
  intros Ht. unfold basename, rfind_slash. rewrite rfind_slash_free by done.
  by destruct t.
Qed.

Lemma rstrip_slash_component (t : string) :
  slash_free t = true -> rstrip_slash t = t.
Proof.
  induction t as [| c t IH]; cbn; [done |].
  destruct (Ascii.eqb c "/") eqn:Ec; cbn; [done |]. intros Ht.
  rewrite IH by done. by destruct t.
Qed.

Lemma rstrip_slash_app (s t : string) :
  t <> "" -> rstrip_slash t = t -> rstrip_slash (s +:+ t) = s +:+ t.
Proof.
  intros Hne Ht. induction s as [| c s IH]; [done |].
  rewrite str_app_cons. cbn [rstrip_slash]. rewrite IH.
  destruct (s +:+ t) eqn:E; [| done].
  destruct s; [by rewrite str_app_nil_l in E | by rewrite str_app_cons in E].
Qed.

Lemma rstrip_slash_trailing (s : string) :
  rstrip_slash (s +:+ "/") = rstrip_slash s.
Proof.
  induction s as [| c s IH]; [done |].
  rewrite str_app_cons. cbn [rstrip_slash]. by rewrite IH.
Qed.

Lemma all_slashes_app (s t : string) :
  all_slashes (s +:+ t) = all_slashes s && all_slashes t.
Proof.
  induction s as [| c s IH]; [done |]. rewrite str_app_cons. cbn.
  by rewrite IH, andb_assoc.
Qed.

Lemma component_not_slashes (t : string) :
  t <> "" -> slash_free t = true -> all_slashes t = false.
Proof.
  destruct t as [| c t]; [done |]. cbn. intros _.
  by destruct (Ascii.eqb c "/").
Qed.

(** The directory of [s/t] is [s], when [s] ends in a component. *)
Lemma dirname_join (s name t : string) :
  name <> "" -> slash_free name = true -> slash_free t = true ->
  dirname ((s +:+ name) +:+ "/" +:+ t) = s +:+ name.
Proof.
  intros Hne Hname Ht. unfold dirname, rfind_slash.
  rewrite rfind_slash_last by done.
  replace (Z.to_nat (0 + Z.of_nat (String.length (s +:+ name)) + 1))
    with (String.length ((s +:+ name) +:+ "/"))
    by (rewrite !str_length_app; cbn; lia).
  rewrite <- (str_app_assoc _ "/" t), str_take_app.
  assert (all_slashes ((s +:+ name) +:+ "/") = false) as ->.
  { rewrite !all_slashes_app, (component_not_slashes name) by done.
    by rewrite andb_false_r. }
  destruct (String.eqb_spec ((s +:+ name) +:+ "/") "") as [E | _]; cbn.
  - apply (f_equal String.length) in E. rewrite str_length_app in E.
    cbn in E. lia.
  - rewrite rstrip_slash_trailing. apply rstrip_slash_app; [done |].
    by apply rstrip_slash_component.
Qed.

Lemma join_nonempty (s t : string) : String.eqb (s +:+ "/" +:+ t) "" = false.
Proof.
  destruct (String.eqb_spec (s +:+ "/" +:+ t) "") as [E | _]; [| done].
  apply (f_equal String.length) in E. rewrite !str_length_app in E.
  cbn in E. lia.
Qed.

(** A file in a directory other than [perturb] is labelled with the name
    of that directory. *)
Lemma derive_label_parent (dir name file fallback : string) :
  name <> "" -> name <> "perturb" ->
  slash_free name = true -> slash_free file = true ->
  _derive_label (Some ((dir +:+ "/" +:+ name) +:+ "/" +:+ file)) fallback = name
  /\ _derive_label (Some (name +:+ "/" +:+ file)) fallback = name.
Proof.
  intros Hne Hnp Hname Hfile. unfold _derive_label, str_or.
  rewrite !join_nonempty.
  pose proof (dirname_join (dir +:+ "/") name file Hne Hname Hfile) as Hd1.
  pose proof (dirname_join "" name file Hne Hname Hfile) as Hd2.
  rewrite (str_app_assoc dir "/" name) in Hd1. rewrite str_app_nil_l in Hd2.
  rewrite Hd1, Hd2, (basename_join dir name), (basename_component name) by done.
  destruct (String.eqb_spec name "perturb"); [done |].
  by destruct (String.eqb_spec name "").
Qed.

(** A file in a directory named [perturb] is labelled with the name of the
    directory above. *)
Lemma derive_label_perturb (dir name file fallback : string) :
  name <> "" -> slash_free name = true -> slash_free file = true ->
  _derive_label (Some (((dir +:+ "/" +:+ name) +:+ "/perturb") +:+ "/" +:+ file))
    fallback = name.
Proof.
  intros Hne Hname Hfile. unfold _derive_label, str_or.
  rewrite join_nonempty.
  change "/perturb" with ("/" +:+ "perturb").
  pose proof (dirname_join ((dir +:+ "/" +:+ name) +:+ "/") "perturb" file)
    as Hd1.
  rewrite (str_app_assoc (dir +:+ "/" +:+ name) "/" "perturb") in Hd1.
  rewrite Hd1 by done.
  rewrite (basename_join _ "perturb") by done.
  cbn [String.eqb Ascii.eqb Bool.eqb].
  pose proof (dirname_join (dir +:+ "/") name "perturb" Hne Hname eq_refl) as Hd2.
  rewrite (str_app_assoc dir "/" name) in Hd2.
  rewrite Hd2, (basename_join dir name) by done.
  by destruct (String.eqb_spec name "").
Qed.

Lemma derive_label_cases (path fallback : string) :
  path <> "" ->
  let parent := basename (dirname path) in
  let grandparent := basename (dirname (dirname path)) in
  let label := _derive_label (Some path) fallback in
  (parent = "perturb" -> grandparent <> "" -> label = grandparent) /\
  (parent = "perturb" -> grandparent = "" -> label = fallback) /\
  (parent <> "perturb" -> parent <> "" -> label = parent) /\
  (parent = "" -> label = fallback).
Proof.
  intros Hpath. cbv zeta. unfold _derive_label, str_or.
  destruct (String.eqb_spec path ""); [done |].
  destruct (String.eqb_spec (basename (dirname path)) "perturb") as [-> | Hp].
  - destruct (String.eqb_spec (basename (dirname (dirname path))) "");
      repeat split; intros; congruence.
  - destruct (String.eqb_spec (basename (dirname path)) "");
      repeat split; intros; congruence.
Qed.

(** C9, amended: a set built at an index that has no [--perturbLabel] entry
    is labelled from its summary path, or from its trials path when it has
    no summary path: with the name of the directory that holds the file,
    unless that name is ['perturb'], in which case with the name of the
    directory above it; when the name so chosen is empty the label is
    ['set-<idx+1>']. *)
Theorem perturb_label_derived
    (perturbSummary perturbTrials perturbLabel : option (list string))
    (idx : nat) (label : string) (summary_path trials_path : option string) :
  perturb_sets perturbSummary perturbTrials perturbLabel !! idx
  = Some (label, summary_path, trials_path) ->
  (length (expand_option perturbLabel) <= idx)%nat ->
  summary_path = expand_option perturbSummary !! idx /\
  trials_path = expand_option perturbTrials !! idx /\
  exists path,
    (summary_path = Some path \/ (summary_path = None /\ trials_path = Some path)) /\
    let parent := basename (dirname path) in
    let grandparent := basename (dirname (dirname path)) in
    let fallback := "set-" +:+ pretty (idx + 1)%nat in
    (parent = "perturb" -> grandparent <> "" -> label = grandparent) /\
    (parent = "perturb" -> grandparent = "" -> label = fallback) /\
    (parent <> "perturb" -> parent <> "" -> label = parent) /\
    (parent = "" -> label = fallback).
Proof.
  rewrite perturb_sets_zipped. intros Hset Hlabel.
  rewrite lookup_map in Hset.
  destruct (seq _ _ !! idx) as [idx' |] eqn:Eseq; [| done].
  apply lookup_seq in Eseq as [-> Hidx]. cbn in Hset.
  injection Hset as <- <- <-. split; [done |]. split; [done |].
  unfold perturb_label.
  rewrite (proj2 (lookup_ge_None (expand_option perturbLabel) idx)) by done.
  destruct (expand_option perturbSummary !! idx) as [sp |] eqn:Es.
  - assert (sp <> "") as Hne.
    { eapply expand_option_nonempty, list_elem_of_lookup_2, Es. }
    exists sp. split; [by left |]. unfold path_or.
    destruct (String.eqb_spec sp ""); [done |].
    by apply derive_label_cases.
  - destruct (expand_option perturbTrials !! idx) as [tp |] eqn:Et.
    + assert (tp <> "") as Hne.
      { eapply expand_option_nonempty, list_elem_of_lookup_2, Et. }
      exists tp. split; [by right |]. by apply derive_label_cases.
    + apply lookup_ge_None in Es, Et. lia.
Qed.

End LabelFacts.

(** ** Loops *)

(** An invariant that every iteration keeps holds when the loop returns. *)
Lemma for_range_invariant {S : Type} (body : nat -> S -> result S)
    (I : nat -> S -> Prop) (count start : nat) (s s' : S) :
  I start s ->
  (forall k t t',
     (start <= k < start + count)%nat -> I k t -> body k t = Ok t' ->
     I (Datatypes.S k) t') ->
  for_range body start count s = Ok s' ->
  I (start + count)%nat s'.
Proof.
  revert start s. induction count as [| count IH]; intros start s Hs Hstep; cbn.
  - intros [= <-]. by rewrite Nat.add_0_r.
  - destruct (body start s) as [t |] eqn:Ebody; [| done].
    intros Hrest. rewrite <- Nat.add_succ_comm. apply (IH _ t); [| | done].
    + apply (Hstep start s); [lia | done..].
    + intros k u u' Hk. apply Hstep. lia.
Qed.

(** A loop whose every iteration returns and keeps the invariant returns. *)
Lemma for_range_progress {S : Type} (body : nat -> S -> result S)
    (I : nat -> S -> Prop) (count start : nat) (s : S) :
  I start s ->
  (forall k t,
     (start <= k < start + count)%nat -> I k t ->
     exists t', body k t = Ok t' /\ I (Datatypes.S k) t') ->
  exists s', for_range body start count s = Ok s' /\ I (start + count)%nat s'.
Proof.
  revert start s. induction count as [| count IH]; intros start s Hs Hstep; cbn.
  - exists s. by rewrite Nat.add_0_r.
  - destruct (Hstep start s) as (t & -> & Ht); [lia | done |].
    rewrite <- Nat.add_succ_comm. apply IH; [done |].
    intros k u Hk. apply Hstep. lia.
Qed.

(** ** Properties of [generate_topology] *)

Section TopologyFacts.

Import Topology.

Variable rng : Type.
Variable np_random_normal : float -> float -> rng -> float * rng.

Abbreviation set_weight := (Topology.set_weight rng np_random_normal).
Abbreviation generate_topology := (Topology.generate_topology rng np_random_normal).
Abbreviation weight_set := (weight_set rng np_random_normal).
Abbreviation weight_class := (weight_class rng np_random_normal).
Abbreviation noisy := (noisy rng np_random_normal).

Lemma digit_distance_sym topology_type n_digits a b :
  digit_distance topology_type n_digits a b
  = digit_distance topology_type n_digits b a.
Proof.
  unfold digit_distance. replace (Z.abs (b - a)) with (Z.abs (a - b)) by lia.
  done.
Qed.

Lemma ring_distance_modular n_digits a b :
  0 <= a < n_digits -> 0 <= b < n_digits ->
  digit_distance "Ring" n_digits a b = modular_distance n_digits a b.
Proof.
  intros Ha Hb. unfold digit_distance, modular_distance. cbn.
  destruct (Z.lt_trichotomy a b) as [Hlt | [-> | Hgt]].
  - rewrite (Z.mod_small (b - a)) by lia.
    replace ((a - b) mod n_digits) with (a - b + n_digits).
    + lia.
    + apply Z.mod_unique with (q := -1); lia.
  - rewrite !Z.sub_diag, Z.mod_0_l by lia. lia.
  - rewrite (Z.mod_small (a - b)) by lia.
    replace ((b - a) mod n_digits) with (b - a + n_digits).
    + lia.
    + apply Z.mod_unique with (q := -1); lia.
Qed.

Lemma snake_distance_linear topology_type n_digits a b :
  topology_type <> "Ring" ->
  digit_distance topology_type n_digits a b = Z.abs (a - b).
Proof.
  intros Hne. unfold digit_distance.
  by destruct (String.eqb_spec topology_type "Ring").
Qed.

(** Every preferred digit is a digit. *)
Lemma preferences_in_range n_digits repeats prefs i d :
  np_repeat (np_arange n_digits) repeats = Ok prefs ->
  prefs !! i = Some d -> 0 <= d < n_digits.
Proof.
  unfold np_repeat, np_arange. destruct (repeats <? 0); [done |].
  intros [= <-] Hd%list_elem_of_lookup_2%list_elem_of_In.
  apply in_flat_map in Hd as (d0 & Hd0 & Hd).
  apply list_elem_of_In, elem_of_replicate in Hd as [-> _].
  apply in_map_iff in Hd0 as (k & <- & Hk%in_seq). lia.
Qed.

Lemma square_zeros (n : Z) (weights : matrix) :
  np_zeros n = Ok weights -> square (Z.to_nat n) weights.
Proof.
  unfold np_zeros. destruct (n <? 0); [done |]. intros [= <-]. split.
  - apply length_replicate.
  - apply Forall_replicate, length_replicate.
Qed.

(** Setting one entry keeps the shape, stores the value, and leaves the
    other entries as they were. *)
Lemma np_setitem_spec (n : nat) (weights weights' : matrix) (i j : nat) (w : float) :
  square n weights ->
  np_setitem weights i j w = Ok weights' ->
  square n weights' /\
  mat_get weights' i j = Some w /\
  forall r c, (r, c) <> (i, j) -> mat_get weights' r c = mat_get weights r c.
Proof.
  intros [Hlen Hrows]. unfold np_setitem.
  destruct (weights !! i) as [row |] eqn:Erow; [| done].
  destruct (Nat.ltb_spec j (length row)) as [Hj | _]; [| done].
  intros [= <-]. pose proof (lookup_lt_Some _ _ _ Erow) as Hi.
  split; [split |]; [| | split].
  - by rewrite length_insert.
  - apply Forall_insert; [done |]. rewrite length_insert.
    by apply (Forall_lookup_1 _ _ _ _ Hrows Erow).
  - unfold mat_get. rewrite list_lookup_insert_eq by done. cbn.
    by apply list_lookup_insert_eq.
  - intros r c Hne. unfold mat_get.
    destruct (decide (r = i)) as [-> | Hr].
    + rewrite list_lookup_insert_eq by done. rewrite Erow. cbn.
      apply list_lookup_insert_ne. congruence.
    + by rewrite list_lookup_insert_ne.
Qed.

(** The state after [weights[i, j] = w]: the assignment returned, the
    shape is kept, and only the entry [(i, j)] is left to describe. *)
Ltac after_setitem Hsq :=
  let Eset := fresh "Eset" in
  destruct (np_setitem _ _ _ _) as [? |] eqn:Eset; cbn; [| done];
  intros [= <- <-];
  destruct (np_setitem_spec _ _ _ _ _ _ Hsq Eset) as (? & ? & ?);
  split; [done |]; split; [| done].

(** One pass of the inner loop body sets entry [(i, j)] and nothing else. *)
Lemma set_weight_step topology_type n_digits prefs (n i j : nat)
    (weights weights' : matrix) (g g' : rng) :
  square n weights ->
  set_weight topology_type n_digits prefs i j (weights, g) = Ok (weights', g') ->
  square n weights' /\
  weight_set topology_type n_digits prefs weights' i j /\
  forall r c, (r, c) <> (i, j) -> mat_get weights' r c = mat_get weights r c.
Proof.
  intros Hsq. unfold Topology.set_weight, np_getitem.
  destruct (prefs !! i) as [digit_i |] eqn:Ei; cbn; [| done].
  destruct (prefs !! j) as [digit_j |] eqn:Ej; cbn; [| done].
  set (dist := digit_distance topology_type n_digits digit_i digit_j).
  destruct (Z.eqb_spec dist 0) as [H0 | H0];
    [| destruct (Z.eqb_spec dist 1) as [H1 | H1]].
  - destruct (np_random_normal Float.zero noise_scale g) as [noise g1] eqn:En.
    after_setitem Hsq.
    exists digit_i, digit_j, (Float.one + noise)%float.
    repeat split; try done; try lia.
    intros _. exists g. by rewrite En.
  - destruct (np_random_normal Float.zero noise_scale g) as [noise g1] eqn:En.
    after_setitem Hsq.
    exists digit_i, digit_j, (Float.half + noise)%float.
    repeat split; try done; try lia.
    intros _. exists g. by rewrite En.
  - after_setitem Hsq.
    exists digit_i, digit_j, Float.zero.
    repeat split; try done; fold dist; intros; lia.
Qed.

Lemma weight_set_ext topology_type n_digits prefs (weights weights' : matrix) r c :
  mat_get weights' r c = mat_get weights r c ->
  weight_set topology_type n_digits prefs weights r c ->
  weight_set topology_type n_digits prefs weights' r c.
Proof.
  intros Heq (digit_r & digit_c & w & Hr & Hc & Hw & Hclass).
  exists digit_r, digit_c, w. by rewrite Heq.
Qed.

(** The invariant of the two loops: the matrix keeps its shape and every
    entry passed so far is set. *)
Lemma weights_loop_invariant topology_type n_digits prefs (n : nat)
    (weights weights' : matrix) (g g' : rng) :
  square n weights ->
  for_range
    (fun i => for_range (set_weight topology_type n_digits prefs i) 0 n)
    0 n (weights, g) = Ok (weights', g') ->
  forall r c, (r < n)%nat -> (c < n)%nat ->
    weight_set topology_type n_digits prefs weights' r c.
Proof.
  intros Hsq Hrun.
  pose (Inv := fun (i j : nat) (st : matrix * rng) =>
    square n st.1 /\
    forall r c, passed i j r c -> (r < n)%nat -> (c < n)%nat ->
      weight_set topology_type n_digits prefs st.1 r c).
  assert (Hfinal : Inv (0 + n)%nat 0%nat (weights', g')).
  { apply (for_range_invariant _ (fun i st => Inv i 0%nat st) _ _ _ _) with (3 := Hrun).
    - split; [done |]. intros r c [Hr | [_ Hc]]; lia.
    - intros i st st' Hi Hinv Hrow.
      assert (Hend : Inv i (0 + n)%nat st').
      { apply (for_range_invariant _ (fun j st => Inv i j st) _ _ _ _) with (3 := Hrow);
          [done |].
        intros j [w0 g0] [w1 g1] Hj [Hsq0 Hset0] Hstep.
        destruct (set_weight_step _ _ _ _ _ _ _ _ _ _ Hsq0 Hstep)
          as (Hsq1 & Hnew & Hother).
        split; [done |]. cbn [fst]. intros r c Hpast Hr Hc.
        destruct (decide ((r, c) = (i, j))) as [[= -> ->] | Hne]; [done |].
        apply (weight_set_ext _ _ _ w0); [by apply Hother |].
        apply Hset0; [| done..].
        destruct Hpast as [Hlt | [-> Hlt]]; [by left |].
        right. split; [done |].
        destruct (decide (c = j)) as [-> | ?]; [done | lia]. }
      destruct Hend as [Hsq' Hset']. split; [done |].
      intros r c [Hlt | [_ Hlt]] Hr Hc; [| lia].
      apply Hset'; [| done..].
      destruct (decide (r = i)) as [-> | ?]; [right; lia | left; lia]. }
  destruct Hfinal as [_ Hset]. intros r c Hr Hc.
  apply Hset; [| done..]. left. lia.
Qed.

(** C1: in the matrix that [generate_topology] returns, the weight of a
    pair of neurons depends on the distance between their preferred digits,
    which is symmetric: the wrap-around distance for ['Ring'], the absolute
    difference otherwise ('Snake'). A pair at distance 0 gets 1.0 plus a
    draw of the noise, a pair at distance 1 gets 0.5 plus a draw of the
    noise, and every other pair gets exactly 0.0. *)
Theorem generate_topology_weights (topology_type : string) (n_neurons n_digits : Z)
    (g g' : rng) (weights : matrix) (neuron_preferences : list Z) :
  generate_topology topology_type n_neurons n_digits g
  = Ok (weights, neuron_preferences, g') ->
  forall i j : nat, (Z.of_nat i < n_neurons) -> (Z.of_nat j < n_neurons) ->
  exists digit_i digit_j w,
    neuron_preferences !! i = Some digit_i /\
    neuron_preferences !! j = Some digit_j /\
    mat_get weights i j = Some w /\
    let dist := digit_distance topology_type n_digits digit_i digit_j in
    dist = digit_distance topology_type n_digits digit_j digit_i /\
    (topology_type = "Ring" -> dist = modular_distance n_digits digit_i digit_j) /\
    (topology_type <> "Ring" -> dist = Z.abs (digit_i - digit_j)) /\
    (dist = 0 -> noisy Float.one w) /\
    (dist = 1 -> noisy Float.half w) /\
    (dist <> 0 -> dist <> 1 -> w = Float.zero).
Proof.
  unfold Topology.generate_topology.
  destruct (Z.eqb_spec n_digits 0) as [| Hnd]; [done |].
  destruct (np_zeros n_neurons) as [w0 |] eqn:Ezeros; cbn; [| done].
  destruct (np_repeat _ _) as [prefs |] eqn:Eprefs; cbn; [| done].
  destruct (for_range _ _ _ _) as [[w1 g1] |] eqn:Eloop; cbn; [| done].
  intros [= <- <- <-] i j Hi Hj.
  apply square_zeros in Ezeros.
  destruct (weights_loop_invariant _ _ _ _ _ _ _ _ Ezeros Eloop i j)
    as (digit_i & digit_j & w & Hpi & Hpj & Hw & Hclass); [lia.. |].
  exists digit_i, digit_j, w. do 3 (split; [done |]). cbv zeta.
  split; [apply digit_distance_sym |].
  split; [| split; [by apply snake_distance_linear | exact Hclass]].
  intros ->.
  apply ring_distance_modular; by eapply preferences_in_range.
Qed.

(** *** The calls that return *)

Lemma length_repeat_each (k : nat) (a : list Z) :
  length (flat_map (replicate k) a) = (k * length a)%nat.
Proof.
  induction a as [| d a IH]; cbn; [lia |].
  rewrite length_app, length_replicate, IH. lia.
Qed.

Lemma set_weight_returns topology_type n_digits prefs (n i j : nat)
    (weights : matrix) (g : rng) :
  square n weights -> length prefs = n -> (i < n)%nat -> (j < n)%nat ->
  exists weights' g',
    set_weight topology_type n_digits prefs i j (weights, g) = Ok (weights', g')
    /\ square n weights'.
Proof.
  intros Hsq Hlen Hi Hj.
  assert (exists st, set_weight topology_type n_digits prefs i j (weights, g) = Ok st)
    as ([weights' g'] & Hst).
  { unfold Topology.set_weight, np_getitem.
    destruct (lookup_lt_is_Some_2 prefs i) as [digit_i ->]; [lia |].
    destruct (lookup_lt_is_Some_2 prefs j) as [digit_j ->]; [lia |].
    cbn [mbind result_bind].
    assert (Hset : forall w, exists weights', np_setitem weights i j w = Ok weights').
    { intros w. unfold np_setitem. destruct Hsq as [Hrows Hcols].
      destruct (lookup_lt_is_Some_2 weights i) as [row Hrow]; [lia |].
      rewrite Hrow. rewrite (Forall_lookup_1 _ _ _ _ Hcols Hrow).
      destruct (Nat.ltb_spec j n); [by eexists | lia]. }
    destruct (_ =? 0); [| destruct (_ =? 1)].
    - destruct (np_random_normal _ _ g) as [noise g1]. cbv beta iota.
      destruct (Hset (Float.one + noise)%float) as [weights' ->]. by eexists.
    - destruct (np_random_normal _ _ g) as [noise g1]. cbv beta iota.
      destruct (Hset (Float.half + noise)%float) as [weights' ->]. by eexists.
    - destruct (Hset Float.zero) as [weights' ->]. by eexists. }
  exists weights', g'. split; [done |].
  by destruct (set_weight_step _ _ _ _ _ _ _ _ _ _ Hsq Hst) as [? _].
Qed.

(** With a positive number of digits that divides the number of neurons,
    [generate_topology] returns. *)
Lemma generate_topology_returns (topology_type : string) (n_neurons n_digits : Z)
    (g : rng) :
  0 < n_digits -> 0 <= n_neurons -> n_neurons mod n_digits = 0 ->
  exists weights neuron_preferences g',
    generate_topology topology_type n_neurons n_digits g
    = Ok (weights, neuron_preferences, g').
Proof.
  intros Hnd Hnn Hdiv. unfold Topology.generate_topology.
  destruct (Z.eqb_spec n_digits 0) as [| _]; [lia |].
  destruct (np_zeros n_neurons) as [w0 |] eqn:Ezeros;
    [| unfold np_zeros in Ezeros; by destruct (Z.ltb_spec n_neurons 0); [lia |]].
  apply square_zeros in Ezeros. cbn.
  assert (0 <= n_neurons / n_digits) as Hq by (apply Z.div_pos; lia).
  unfold np_repeat. destruct (Z.ltb_spec (n_neurons / n_digits) 0); [lia |]. cbn.
  set (prefs := flat_map _ _).
  assert (length prefs = Z.to_nat n_neurons) as Hlen.
  { unfold prefs, np_arange.
    rewrite length_repeat_each, length_map, length_seq, <- Z2Nat.inj_mul by lia.
    f_equal. pose proof (Z.div_mod n_neurons n_digits). lia. }
  set (n := Z.to_nat n_neurons) in *.
  destruct (for_range_progress
              (fun i => for_range (set_weight topology_type n_digits prefs i) 0 n)
              (fun _ st => square n st.1) n 0 (w0, g))
    as ([w1 g1] & -> & _); [done | | by eexists _, _, _].
  intros i st Hi Hsq.
  apply (for_range_progress _ (fun _ st => square n st.1) n 0 st); [done |].
  intros j [w2 g2] Hj Hsq2.
  destruct (set_weight_returns topology_type n_digits prefs n i j w2 g2)
    as (w3 & g3 & -> & Hsq3); [done | done | lia | lia |].
  by eexists.
Qed.

End TopologyFacts.

(** ** Behaviour at the edges of the stated properties *)

Section EdgeCases.

Import ReportPlot.

(** A list under ['samples'] that holds something other than numbers makes
    [float()] raise: the list is taken, then converted. *)
Example normalize_samples_null_raises :
  _normalize_acc_history no_str_float (JDict [("samples", JList [JNull])])
  = Raise TypeError.
Proof. reflexivity. Qed.

(** An integer beyond the range of a binary64 makes [float()] raise. *)
Example normalize_huge_int_raises :
  _normalize_acc_history no_str_float (JList [JInt (2 ^ 1024)])
  = Raise OverflowError.
Proof. vm_compute. reflexivity. Qed.

(** A string that parses as a number is taken as that number. *)
Example normalize_numeric_string :
  _normalize_acc_history (fun _ => Some 0.5%float) (JList [JStr "0.5"])
  = Ok (Some [("readout", [0.5%float])], None).
Proof. reflexivity. Qed.

(** When the number of digits does not divide the number of neurons, the
    preference array is shorter than the matrix is wide, and the loop runs
    off its end. *)
Example generate_topology_uneven_raises :
  Topology.generate_topology nat counting_normal "Ring" 5 2 0%nat
  = Raise IndexError.
Proof. vm_compute. reflexivity. Qed.

(** The noise is drawn afresh for every entry: two mirrored entries have
    the same distance and the same base weight, and different draws. *)
Example mirrored_weights_differ :
  exists weights prefs g',
    Topology.generate_topology nat counting_normal "Ring" 4 4 0%nat
    = Ok (weights, prefs, g') /\
    mat_get weights 0 1 <> mat_get weights 1 0.
Proof.
  eexists _, _, _. split; [vm_compute; reflexivity |].
  vm_compute. intros H. discriminate H.
Qed.

(** A window longer than the series makes the smoothed series as long as
    the window: [np.convolve] takes the longer argument as the signal. *)
Example smooth_long_window :
  length <$> _smooth [1; 2; 3]%float 5 = Ok 5%nat.
Proof. vm_compute. reflexivity. Qed.

End EdgeCases.

(** ** The properties at concrete inputs *)

Section Witnesses.

Import ReportPlot.

Lemma generate_topology_weights_witness :
  exists weights prefs g',
    Topology.generate_topology nat counting_normal "Ring" 4 4 0%nat
    = Ok (weights, prefs, g') /\
    exists w,
      prefs !! 0%nat = Some 0 /\ prefs !! 3%nat = Some 3 /\
      mat_get weights 0 3 = Some w /\
      Topology.digit_distance "Ring" 4 0 3 = 1 /\
      noisy nat counting_normal Float.half w.
Proof.
  destruct (Topology.generate_topology nat counting_normal "Ring" 4 4 0%nat)
    as [[[weights prefs] g'] | e] eqn:Erun;
    [| vm_compute in Erun; discriminate Erun].
  exists weights, prefs, g'. split; [reflexivity |].
  destruct (generate_topology_weights nat counting_normal "Ring" 4 4 0%nat g'
              weights prefs Erun 0%nat 3%nat eq_refl eq_refl)
    as (digit_i & digit_j & w & Hi & Hj & Hw & _ & _ & _ & _ & Hhalf & _).
  vm_compute in Erun. injection Erun as <- <- <-.
  injection Hi as <-. injection Hj as <-.
  exists w. repeat split; [exact Hw | exact (Hhalf eq_refl)].
Defined.

Lemma normalize_flat_sequence_witness :
  Forall2 json_number [JFloat 0.5; JInt 1] [0.5%float; 1%float] /\
  _normalize_acc_history no_str_float (JList [JFloat 0.5; JInt 1])
  = Ok (Some [("readout", [0.5%float; 1%float])], None).
Proof.
  assert (H : Forall2 json_number [JFloat 0.5; JInt 1] [0.5%float; 1%float]).
  { constructor; [by left |]. constructor; [| constructor].
    right. exists 1. split; reflexivity. }
  split; [exact H | exact (normalize_flat_sequence no_str_float _ _ H)].
Defined.

Lemma normalize_samples_only_witness :
  Forall2 json_number [JFloat 0.25; JInt 1] [0.25%float; 1%float] /\
  _normalize_acc_history no_str_float
    (JDict [("samples", JList [JFloat 0.25; JInt 1])])
  = Ok (Some [("readout", [0.25%float; 1%float])], None).
Proof.
  assert (H : Forall2 json_number [JFloat 0.25; JInt 1] [0.25%float; 1%float]).
  { constructor; [by left |]. constructor; [| constructor].
    right. exists 1. split; reflexivity. }
  split; [exact H | exact (proj2 (normalize_samples_only no_str_float _) _ H)].
Defined.

Lemma normalize_unrecognized_witness :
  let d := [("epochs", JInt 3); ("samples", JStr "none")] in
  (~ is_json_list (py_get d "readout") /\
   ~ is_json_list (py_get d "proto") /\
   ~ is_json_list (py_get d "samples")) /\
  _normalize_acc_history no_str_float (JDict d)
  = Ok (None, Some "unknown keys: epochs, samples").
Proof.
  intros d.
  assert (Hr : ~ is_json_list (py_get d "readout")) by (intros [l Hl]; discriminate Hl).
  assert (Hp : ~ is_json_list (py_get d "proto")) by (intros [l Hl]; discriminate Hl).
  assert (Hs : ~ is_json_list (py_get d "samples")) by (intros [l Hl]; discriminate Hl).
  split; [by repeat split |].
  exact (proj1 (normalize_unrecognized no_str_float d Hr Hp Hs)).
Defined.

Lemma smooth_short_identity_witness :
  (length [0.5%float; 0.25%float] < 3)%nat /\
  _smooth [0.5%float; 0.25%float] 25 = Ok [0.5%float; 0.25%float].
Proof.
  assert (H : (length [0.5%float; 0.25%float] < 3)%nat) by (cbn; lia).
  split; [exact H | exact (smooth_short_identity _ 25 H)].
Defined.

Lemma binned_stat_empty_cell_witness :
  exists heat x_edges y_edges,
    binned_stat [0; 1; 0.5]%float [0; 1; 1]%float [0.5; 0.75; 0.25]%float 2
    = Ok (heat, x_edges, y_edges) /\
    mat_get heat 0 1 = Some 0%float.
Proof.
  destruct (binned_stat [0; 1; 0.5]%float [0; 1; 1]%float [0.5; 0.75; 0.25]%float 2)
    as [[[heat x_edges] y_edges] | e] eqn:Erun;
    [| vm_compute in Erun; discriminate Erun].
  exists heat, x_edges, y_edges. split; [reflexivity |].
  apply (binned_stat_empty_cell _ _ _ 2 heat x_edges y_edges 0 1 Erun);
    [lia | lia |].
  vm_compute in Erun. injection Erun as <- <- <-.
  repeat constructor; intros [H1 H2]; vm_compute in H1, H2;
    first [discriminate H1 | discriminate H2].
Defined.

Lemma perturbation_curve_nulls_witness :
  exists calls parts,
    plot_perturbation_sets no_str_float example_read_json
      [("ring", Some example_summary_path, None)] = Ok (calls, parts) /\
    Plot [0; 1; 2; 3] [1.0; 0.8; Float.nan; 0.6]%float Solid "ring" ∈ calls.
Proof.
  destruct (plot_perturbation_sets no_str_float example_read_json
              [("ring", Some example_summary_path, None)])
    as [[calls parts] | e] eqn:Erun;
    [| vm_compute in Erun; discriminate Erun].
  exists calls, parts. split; [reflexivity |].
  refine (proj2 (proj2 (perturbation_curve_nulls no_str_float example_read_json
                   [("ring", Some example_summary_path, None)]
                   "ring" example_summary_path None _ _ example_mean
                   [1.0; 0.8; Float.nan; 0.6]%float calls parts
                   _ _ eq_refl eq_refl eq_refl _ _ Erun))).
  - apply list_elem_of_here.
  - discriminate.
  - discriminate.
  - repeat constructor; first [by right; left | by left].
Defined.

Lemma history_overlay_policy_witness :
  let values := replicate 16 0.5%float in
  let series := [("readout", values); ("proto", [0.25%float])] in
  (NoDup (dict_keys series) /\ ("readout", values) ∈ series) /\
  exists calls,
    _plot_history_series series "Ring" "acc_history" "out" ["png"] = Ok calls /\
    exists xs ys,
      Plot xs ys Dashed "readout (smoothed)" ∈ calls /\
      _smooth values 3 = Ok ys /\ length ys = 16%nat.
Proof.
  intros values series.
  assert (Hnd : NoDup (dict_keys series)).
  { repeat constructor; intros H; repeat (apply elem_of_cons in H as [H | H];
      [discriminate H |]); by apply elem_of_nil in H. }
  assert (Hin : ("readout", values) ∈ series) by apply list_elem_of_here.
  split; [by split |].
  destruct (history_overlay_policy series "Ring" "acc_history" "out" ["png"]
              "readout" values Hnd Hin)
    as (calls & Hrun & [_ Hmake] & Hall).
  exists calls. split; [exact Hrun |].
  destruct Hmake as (xs & ys & Hplot); [cbn; lia |].
  exists xs, ys. split; [exact Hplot |].
  destruct (Hall xs ys Hplot) as (_ & Hsmooth & _ & Hlen).
  split; [exact Hsmooth | exact Hlen].
Defined.

Lemma perturb_label_derived_witness :
  let summaries := Some ["runs/ring/perturb/perturb_summary.json,x/snake/s.json"] in
  let labels := Some ["ring-noise"] in
  (perturb_sets summaries None labels !! 1%nat
   = Some ("snake", Some "x/snake/s.json", None) /\
   (length (expand_option labels) <= 1)%nat) /\
  "snake" = basename (dirname "x/snake/s.json").
Proof.
  intros summaries labels.
  assert (Hset : perturb_sets summaries None labels !! 1%nat
                 = Some ("snake", Some "x/snake/s.json", None)) by reflexivity.
  assert (Hlabels : (length (expand_option labels) <= 1)%nat) by (cbn; lia).
  split; [by split |].
  destruct (perturb_label_derived summaries None labels 1 "snake"
              (Some "x/snake/s.json") None Hset Hlabels)
    as (_ & _ & path & Hpath & _ & _ & Hparent & _).
  destruct Hpath as [[= <-] | [[=] _]].
  apply Hparent; discriminate.
Defined.

Lemma normalize_known_keys_ignore_samples_witness :
  let d := [("proto", JList [JInt 1]); ("samples", JList [JNull]);
            ("readout", JList [JFloat 0.5])] in
  let d' := [("readout", JList [JFloat 0.5]); ("proto", JList [JInt 1])] in
  is_json_list (py_get d "readout") /\
  _normalize_acc_history no_str_float (JDict d')
  = _normalize_acc_history no_str_float (JDict d).
Proof.
  intros d d'.
  assert (Hr : is_json_list (py_get d "readout")) by (by eexists).
  split; [exact Hr |].
  exact (proj1 (normalize_known_keys_ignore_samples no_str_float d d'
                  (or_introl Hr) eq_refl eq_refl)).
Defined.

(** C9, as stated, at a summary kept in a [perturb] directory: the set is
    labelled ['ring'], which is not the name of the directory that holds
    the summary. *)
Lemma perturb_label_not_parent_name :
  perturb_sets (Some ["runs/ring/perturb/perturb_summary.json"]) None None
  = [("ring", Some "runs/ring/perturb/perturb_summary.json", None)] /\
  basename (dirname "runs/ring/perturb/perturb_summary.json") = "perturb" /\
  "ring" <> "perturb".
Proof. repeat split. discriminate. Qed.

End Witnesses.

(** ** Further properties of [_normalize_acc_history] *)

Section NormalizeShape.

Variable float_of_str : string -> option float.

Abbreviation _normalize_acc_history := (ReportPlot._normalize_acc_history float_of_str).

(** The four shapes of a result: no data and a note, or one of three sets
    of series and no note. *)
Lemma normalize_shapes acc_history out note :
  _normalize_acc_history acc_history = Ok (out, note) ->
  (out = None /\ exists text, note = Some text /\ text <> "") \/
  (note = None /\
   ((exists fr, out = Some [("readout", fr)]) \/
    (exists fp, out = Some [("proto", fp)]) \/
    (exists fr fp, out = Some [("readout", fr); ("proto", fp)]))).
Proof.
  unfold ReportPlot._normalize_acc_history.
  destruct acc_history as [| b | z | f | s | l | d].
  1-5: intros [= <- <-]; left; split; [done |]; by eexists.
  - destruct (traverse _ l) as [fs |]; cbn; [| done].
    intros [= <- <-]. right. split; [done |]. left. by eexists.
  - unfold ReportPlot.known_keys. cbn [for_each]. unfold ReportPlot.collect_key.
    destruct (py_get d "readout") as [| | | | | lr |];
      destruct (py_get d "proto") as [| | | | | lp |]; cbn;
      try (destruct (traverse _ lr) as [fr |]; cbn; [| done]);
      try (destruct (traverse _ lp) as [fp |]; cbn; [| done]);
      try (intros [= <- <-]; right; split; [done |]; by eauto 6).
    all: destruct (py_get d "samples") as [| | | | | ls |]; cbn;
      try (destruct (traverse _ ls) as [fs |]; cbn; [| done]);
      intros [= <- <-];
      try (right; split; [done |]; by eauto 6).
    all: left; split; [done |]; eexists; split; [done |];
      unfold ReportPlot.unknown_keys_note; by rewrite str_app_cons.
Qed.

(** X1: whatever the input, a result of [_normalize_acc_history] is either
    data or a diagnostic, never both and never neither: data is a mapping
    that is not empty and comes with no diagnostic, and no data comes with
    a diagnostic that is not empty. *)
Theorem normalize_data_or_note (acc_history : json)
    (out : option ReportPlot.series_map) (note : option string) :
  _normalize_acc_history acc_history = Ok (out, note) ->
  match out with
  | Some series => series <> [] /\ note = None
  | None => exists text, note = Some text /\ text <> ""
  end.
Proof.
  intros Hrun. destruct (normalize_shapes _ _ _ Hrun)
    as [[-> Hnote] | [-> [[fr ->] | [[fp ->] | (fr & fp & ->)]]]]; done.
Qed.

(** X2: the series that [_normalize_acc_history] returns are named
    ['readout'] or ['proto'], no name twice, ['readout'] first. *)
Theorem normalize_series_names (acc_history : json)
    (series : ReportPlot.series_map) (note : option string) :
  _normalize_acc_history acc_history = Ok (Some series, note) ->
  NoDup (dict_keys series) /\
  (dict_keys series = ["readout"] \/ dict_keys series = ["proto"] \/
   dict_keys series = ["readout"; "proto"]).
Proof.
  intros Hrun. destruct (normalize_shapes _ _ _ Hrun)
    as [[[=] _] | [_ [[fr [= ->]] | [[fp [= ->]] | (fr & fp & [= ->])]]]]; cbn.
  - split; [apply NoDup_singleton | by left].
  - split; [apply NoDup_singleton | by right; left].
  - split; [| by right; right].
    apply NoDup_cons. split; [| apply NoDup_singleton].
    intros H%list_elem_of_singleton. discriminate H.
Qed.

End NormalizeShape.

(** ** Further properties of smoothing and of the accuracy-history plot *)

Section HistoryFigure.

Import ReportPlot.

Lemma convolve_same_length_max (a v : list float) :
  a <> [] -> v <> [] ->
  exists ys,
    np_convolve_same a v = Ok ys /\
    length ys = Nat.max (length a) (length v).
Proof.
  intros Ha Hv. unfold np_convolve_same.
  destruct (Nat.ltb_spec (length a) (length v)) as [Hlt | Hge].
  - destruct v as [| v0 v]; [done |]. destruct a as [| a0 a]; [done |].
    eexists. split; [reflexivity |].
    rewrite length_map, length_seq. lia.
  - destruct a as [| a0 a]; [done |]. destruct v as [| v0 v]; [done |].
    eexists. split; [reflexivity |].
    rewrite length_map, length_seq. lia.
Qed.

(** X3: [_smooth] never raises. With a window of 1 or less it returns the
    series as it is; with three values or more and a window above 1 it
    returns as many values as the longer of the series and the window, so a
    window longer than the series makes the result longer than the input. *)
Theorem smooth_length (values : list float) (window : Z) :
  exists ys,
    _smooth values window = Ok ys /\
    (window <= 1 -> ys = values) /\
    ((3 <= length values)%nat -> 1 < window ->
     length ys = Nat.max (length values) (Z.to_nat window)).
Proof.
  unfold _smooth.
  destruct (Z.ltb_spec (Z.of_nat (length values)) 3) as [Hshort | Hlong]; cbn.
  { exists values. split; [done |]. split; [done | lia]. }
  destruct (Z.leb_spec window 1) as [Hw | Hw].
  { exists values. split; [done |]. split; [done | lia]. }
  destruct (convolve_same_length_max values (boxcar window)) as (ys & -> & Hlen).
  - destruct values; [cbn in Hlong; lia | done].
  - intros E%(f_equal length). rewrite length_boxcar in E. cbn in E. lia.
  - exists ys. split; [done |]. split; [lia |].
    intros _ _. by rewrite Hlen, length_boxcar.
Qed.

Lemma series_calls_plots item cs c :
  series_calls item cs -> c ∈ cs -> is_save c = false.
Proof.
  destruct item as [label values]. unfold series_calls.
  destruct values as [| v values]; [by intros -> ?%elem_of_nil |].
  destruct (decide _).
  - intros (ys & _ & ->) Hc.
    repeat (apply elem_of_cons in Hc as [-> | Hc]; [done |]).
    by apply elem_of_nil in Hc.
  - intros -> Hc. apply elem_of_cons in Hc as [-> | Hc]; [done |].
    by apply elem_of_nil in Hc.
Qed.

(** X4: [_plot_history_series] never raises, and it writes the figure out
    once, as its last call, whatever the series are (also when there is
    none, or when all are empty). *)
Theorem history_figure_saved_once (series : series_map)
    (title base out_dir : string) (formats : list string) :
  exists calls,
    _plot_history_series series title base out_dir formats
    = Ok (calls ++ [SaveFigure base out_dir formats]) /\
    Forall (fun c => is_save c = false) calls.
Proof.
  destruct (for_each_series_calls series []) as (curves & Hloop & Hmem).
  rewrite app_nil_l in Hloop. unfold _plot_history_series. rewrite Hloop.
  assert (Hcurves : Forall (fun c => is_save c = false) curves).
  { apply Forall_forall. intros c (item & cs & _ & Hcs & Hc)%Hmem.
    by eapply series_calls_plots. }
  destruct (1 <? length (dict_keys series))%nat; cbn;
    (eexists; split; [reflexivity |]);
    repeat (apply Forall_app; split); try done; by repeat constructor.
Qed.

(** X5: the solid curves of the accuracy-history plot are the series that
    are not empty, each drawn as it is against the indices of its values;
    an empty series is skipped. *)
Theorem history_raw_curves (series : series_map)
    (title base out_dir : string) (formats : list string) :
  exists calls,
    _plot_history_series series title base out_dir formats = Ok calls /\
    forall xs ys label,
      Plot xs ys Solid label ∈ calls <->
      exists values,
        (label, values) ∈ series /\ values <> [] /\
        ys = values /\ xs = py_range (length values).
Proof.
  destruct (history_plot_calls series title base out_dir formats)
    as (curves & calls & Hloop & Hcalls & Hplots).
  destruct (for_each_series_calls series []) as (curves' & Hloop' & Hmem).
  rewrite app_nil_l, Hloop in Hloop'. injection Hloop' as <-.
  exists calls. split; [done |]. intros xs ys label.
  rewrite Hplots, Hmem. split.
  - intros ([label' values] & cs & Hin & Hcs & Hc). unfold series_calls in Hcs.
    destruct values as [| v values]; [subst cs; by apply elem_of_nil in Hc |].
    revert Hin Hcs. generalize (v :: values) (@nil_cons _ v values).
    clear v values. intros values Hne Hin Hcs.
    assert (Hfirst : Plot xs ys Solid label
                     = Plot (py_range (length values)) values Solid label').
    { destruct (decide _).
      - destruct Hcs as (zs & _ & ->).
        apply elem_of_cons in Hc as [Hc | Hc]; [done |].
        apply elem_of_cons in Hc as [Hc | Hc]; [discriminate Hc |].
        by apply elem_of_nil in Hc.
      - subst cs. apply elem_of_cons in Hc as [Hc | Hc]; [done |].
        by apply elem_of_nil in Hc. }
    injection Hfirst as -> -> ->. exists values. by repeat split.
  - intros (values & Hin & Hne & -> & ->).
    destruct (plot_one_series_calls (label, values) []) as (cs & _ & Hcs).
    exists (label, values), cs. split; [done |]. split; [done |].
    unfold series_calls in Hcs. destruct values as [| v values]; [done |].
    destruct (decide _).
    + destruct Hcs as (zs & _ & ->). apply list_elem_of_here.
    + subst cs. apply list_elem_of_here.
Qed.

End HistoryFigure.

(** ** Further properties of [binned_stat] *)

Section BinnedShape.

Import ReportPlot.

(** A loop over a list whose every iteration returns and keeps the
    invariant returns. *)
Lemma for_each_progress {A S : Type} (body : A -> S -> result S)
    (I : S -> Prop) (l : list A) (s : S) :
  I s ->
  (forall a t, a ∈ l -> I t -> exists t', body a t = Ok t' /\ I t') ->
  exists s', for_each body l s = Ok s' /\ I s'.
Proof.
  revert s. induction l as [| a l IH]; intros s Hs Hstep; cbn; [by eauto |].
  destruct (Hstep a s) as (t & -> & Ht); [apply list_elem_of_here | done |].
  apply IH; [done |]. intros b u Hb. apply Hstep. by apply list_elem_of_further.
Qed.

Lemma length_np_linspace (start stop : float) (num : nat) :
  length (np_linspace start stop num) = num.
Proof.
  unfold np_linspace.
  destruct (0 <? Z.of_nat num - 1); [destruct (PrimFloat.eqb _ _) |];
    destruct (1 <? num)%nat;
    rewrite ?length_insert, !length_map, length_seq; done.
Qed.

Lemma bin_index_range edges v (bins : nat) :
  (0 < bins)%nat -> 0 <= bin_index edges v bins < Z.of_nat bins.
Proof. unfold bin_index, np_clip. lia. Qed.

Lemma square_np_zeros (bins : nat) : square bins (np_zeros bins bins).
Proof.
  split; [apply length_replicate |].
  apply Forall_replicate, length_replicate.
Qed.

(** An update inside the matrix returns and keeps the shape. *)
Lemma mat_update_square f (i j : Z) (n : nat) (m : matrix) :
  square n m -> 0 <= i < Z.of_nat n -> 0 <= j < Z.of_nat n ->
  exists m', mat_update f i j m = Ok m' /\ square n m'.
Proof.
  intros [Hlen Hrows] Hi Hj. unfold mat_update, np_index. rewrite Hlen.
  destruct (Z.leb_spec 0 i); [| lia].
  destruct (Z.ltb_spec i (Z.of_nat n)); [| lia]. cbn.
  destruct (lookup_lt_is_Some_2 m (Z.to_nat i)) as [row Hrow]; [lia |].
  rewrite Hrow. rewrite (Forall_lookup_1 _ _ _ _ Hrows Hrow).
  destruct (Z.leb_spec 0 j); [| lia].
  destruct (Z.ltb_spec j (Z.of_nat n)); [| lia]. cbn.
  eexists. split; [reflexivity |]. split.
  - by rewrite length_insert.
  - apply Forall_insert; [done |]. rewrite length_alter.
    by apply (Forall_lookup_1 _ _ _ _ Hrows Hrow).
Qed.

Lemma square_mat_div (n : nat) (grid counts : matrix) :
  square n grid -> square n counts ->
  square n (mat_div grid (clamp_counts counts)).
Proof.
  intros [Hg Hgr] [Hc Hcr]. unfold mat_div, clamp_counts. split.
  - rewrite length_zip_with, length_map. lia.
  - apply Forall_forall. intros row Hrow.
    apply list_elem_of_lookup in Hrow as [r Hr].
    rewrite lookup_zip_with, lookup_map in Hr.
    destruct (grid !! r) as [grow |] eqn:Egr; [| done].
    destruct (counts !! r) as [crow |] eqn:Ecr; [| done].
    cbn in Hr. injection Hr as <-.
    rewrite length_zip_with, length_map.
    rewrite (Forall_lookup_1 _ _ _ _ Hgr Egr), (Forall_lookup_1 _ _ _ _ Hcr Ecr).
    lia.
Qed.

Lemma np_min_nonempty (x : list float) : x <> [] -> exists m, np_min x = Ok m.
Proof. destruct x; [done |]. by eexists. Qed.

Lemma np_max_nonempty (x : list float) : x <> [] -> exists m, np_max x = Ok m.
Proof. destruct x; [done |]. by eexists. Qed.

(** X6: with at least one bin and coordinates that are not empty,
    [binned_stat] returns, whatever the values are (NaN and infinities
    included: the clipping keeps every sample inside the grid); the heatmap
    is [bins] by [bins] and each list of edges has [bins + 1] entries. *)
Theorem binned_stat_shape (x y values : list float) (bins : nat) :
  (0 < bins)%nat -> x <> [] -> y <> [] ->
  exists heat x_edges y_edges,
    binned_stat x y values bins = Ok (heat, x_edges, y_edges) /\
    square bins heat /\
    length x_edges = Datatypes.S bins /\
    length y_edges = Datatypes.S bins.
Proof.
  intros Hbins Hx Hy. unfold binned_stat.
  destruct (np_min_nonempty x Hx) as [x_lo ->].
  destruct (np_max_nonempty x Hx) as [x_hi ->].
  destruct (np_min_nonempty y Hy) as [y_lo ->].
  destruct (np_max_nonempty y Hy) as [y_hi ->]. cbn.
  set (x_edges := np_linspace x_lo x_hi (bins + 1)).
  set (y_edges := np_linspace y_lo y_hi (bins + 1)).
  destruct (for_each_progress (accumulate x_edges y_edges bins)
              (fun st => square bins st.1 /\ square bins st.2)
              (zip3 x y values) (np_zeros bins bins, np_zeros bins bins))
    as ([grid counts] & -> & Hgrid & Hcounts).
  - split; apply square_np_zeros.
  - intros [[xv yv] v] [grid counts] _ [Hg Hc]. unfold accumulate.
    destruct (mat_update_square (fun g => (g + v)%float)
                (bin_index y_edges yv bins) (bin_index x_edges xv bins) bins grid)
      as (grid' & -> & Hg'); [done | by apply bin_index_range.. |].
    destruct (mat_update_square (fun c => (c + 1)%float)
                (bin_index y_edges yv bins) (bin_index x_edges xv bins) bins counts)
      as (counts' & -> & Hc'); [done | by apply bin_index_range.. |].
    by eexists.
  - cbn. eexists _, _, _. split; [reflexivity |].
    split; [by apply square_mat_div |].
    unfold x_edges, y_edges. rewrite !length_np_linspace. lia.
Qed.

Lemma np_index_zero (i : Z) : np_index 0 i = Raise IndexError.
Proof.
  unfold np_index. change (Z.of_nat 0) with 0. change (- 0) with 0.
  destruct (Z.leb_spec 0 i), (Z.ltb_spec i 0); try lia; reflexivity.
Qed.

Lemma mat_update_empty f (i j : Z) : mat_update f i j [] = Raise IndexError.
Proof.
  unfold mat_update. change (length (@nil (list float))) with 0%nat.
  by rewrite np_index_zero.
Qed.

Lemma accumulate_empty x_edges y_edges sample (counts : matrix) :
  accumulate x_edges y_edges 0 sample ([], counts) = Raise IndexError.
Proof.
  destruct sample as [[xv yv] v]. unfold accumulate.
  by rewrite mat_update_empty.
Qed.

(** X7: [binned_stat] raises [ValueError] when the x or the y coordinates
    are empty (there is no minimum to take), and [IndexError] when it is
    asked for no bin and has a sample to place. *)
Theorem binned_stat_errors (x y values : list float) :
  (x = [] \/ y = [] -> forall bins, binned_stat x y values bins = Raise ValueError) /\
  (x <> [] -> y <> [] -> values <> [] ->
   binned_stat x y values 0 = Raise IndexError).
Proof.
  split.
  - intros [-> | ->] bins; [done |]. unfold binned_stat.
    destruct x as [| x0 x]; [done |]. reflexivity.
  - intros Hx Hy Hv. unfold binned_stat.
    destruct x as [| x0 x]; [done |]. destruct y as [| y0 y]; [done |].
    destruct values as [| v0 values]; [done |].
    cbn [np_min np_max mbind result_bind].
    change (zip3 (x0 :: x) (y0 :: y) (v0 :: values))
      with ((x0, y0, v0) :: zip3 x y values).
    change (np_zeros 0 0) with (@nil (list float)).
    cbn [for_each]. by rewrite accumulate_empty.
Qed.

End BinnedShape.

(** ** Further properties of the sets, their labels and the formats *)

Section SetsAndFormats.

Import ReportPlot.

(** What follows the last slash has no slash. *)
Lemma rfind_slash_from_spec (p : string) (i last : Z) :
  last < i ->
  (rfind_slash_from p i last = last /\ slash_free p = true) \/
  (i <= rfind_slash_from p i last /\
   slash_free (str_drop (Z.to_nat (rfind_slash_from p i last - i + 1)) p) = true).
Proof.
  revert i last. induction p as [| c p IH]; intros i last Hlast; [by left |].
  cbn [rfind_slash_from].
  destruct (Ascii.eqb c "/") eqn:Ec.
  - destruct (IH (i + 1) i) as [[Hr Hp] | [Hr Hp]]; [lia | |].
    + right. rewrite Hr. split; [lia |].
      by replace (Z.to_nat (i - i + 1)) with 1%nat by lia.
    + right. split; [lia |].
      replace (Z.to_nat (rfind_slash_from p (i + 1) i - i + 1))
        with (Datatypes.S (Z.to_nat (rfind_slash_from p (i + 1) i - (i + 1) + 1)))
        by lia.
      done.
  - destruct (IH (i + 1) last) as [[Hr Hp] | [Hr Hp]]; [lia | |].
    + left. split; [done |]. cbn. by rewrite Ec, Hp.
    + right. split; [lia |].
      replace (Z.to_nat (rfind_slash_from p (i + 1) last - i + 1))
        with (Datatypes.S (Z.to_nat (rfind_slash_from p (i + 1) last - (i + 1) + 1)))
        by lia.
      done.
Qed.

Lemma basename_slash_free (p : string) : slash_free (basename p) = true.
Proof.
  unfold basename, rfind_slash.
  destruct (rfind_slash_from_spec p 0 (-1)) as [[-> Hp] | [Hr Hp]]; [lia | |].
  - by destruct p.
  - by rewrite Z.sub_0_r in Hp.
Qed.

Lemma derive_label_nonempty (path : option string) (fallback : string) :
  fallback <> "" -> _derive_label path fallback <> "".
Proof.
  intros Hf. unfold _derive_label, str_or.
  destruct path as [path |]; [| done].
  destruct (String.eqb_spec path ""); [done |].
  destruct (String.eqb (basename (dirname path)) "perturb").
  - by destruct (String.eqb_spec (basename (dirname (dirname path))) "").
  - by destruct (String.eqb_spec (basename (dirname path)) "").
Qed.

(** X8: the label that [_derive_label] returns is the fallback, or else a
    directory name: a string that is not empty and has no slash in it. *)
Theorem derive_label_shape (path : option string) (fallback : string) :
  _derive_label path fallback = fallback \/
  (_derive_label path fallback <> "" /\
   slash_free (_derive_label path fallback) = true).
Proof.
  unfold _derive_label, str_or.
  destruct path as [path |]; [| by left].
  destruct (String.eqb_spec path ""); [by left |].
  destruct (String.eqb (basename (dirname path)) "perturb").
  - destruct (String.eqb_spec (basename (dirname (dirname path))) "");
      [by left | right].
    split; [done | apply basename_slash_free].
  - destruct (String.eqb_spec (basename (dirname path)) ""); [by left | right].
    split; [done | apply basename_slash_free].
Qed.

Lemma split_commas_nonempty (entry : string) : split_commas entry <> [].
Proof.
  destruct entry as [| c entry]; cbn; [done |].
  destruct (Ascii.eqb c ","); [done |]. by destruct (split_commas entry).
Qed.

Lemma split_commas_comma_free (entry : string) :
  Forall (fun part => comma_free part = true) (split_commas entry).
Proof.
  induction entry as [| c entry IH]; cbn; [by repeat constructor |].
  destruct (Ascii.eqb c ",") eqn:Ec; [by constructor |].
  destruct (split_commas entry) as [| part parts]; [by repeat constructor; cbn; rewrite Ec |].
  apply Forall_cons in IH as [Hpart Hparts].
  constructor; [| done]. cbn. by rewrite Ec, Hpart.
Qed.

(** Joining what [split(',')] returns gives the string back. *)
Lemma split_commas_join (entry : string) :
  String.concat "," (split_commas entry) = entry.
Proof.
  induction entry as [| c entry IH]; [done |]. cbn [split_commas].
  destruct (Ascii.eqb_spec c ",") as [-> | Hc].
  - pose proof (split_commas_nonempty entry) as Hne.
    destruct (split_commas entry) as [| part parts] eqn:E; [done |].
    change (String.concat "," ("" :: part :: parts))
      with ("" +:+ "," +:+ String.concat "," (part :: parts)).
    by rewrite IH.
  - destruct (split_commas entry) as [| part parts] eqn:E;
      [by destruct (split_commas_nonempty entry) |].
    destruct parts as [| part' parts].
    + cbn in *. by rewrite IH.
    + change (String.concat "," (String c part :: part' :: parts))
        with (String c part +:+ "," +:+ String.concat "," (part' :: parts)).
      change (String.concat "," (part :: part' :: parts))
        with (part +:+ "," +:+ String.concat "," (part' :: parts)) in IH.
      by rewrite str_app_cons, IH.
Qed.

(** X9: every part that a repeatable option expands to is a part of one of
    its entries between two commas: it is not empty and has no comma. *)
Theorem expand_option_parts (arg : option (list string)) (part : string) :
  part ∈ expand_option arg -> part <> "" /\ comma_free part = true.
Proof.
  intros Hin. split; [by eapply expand_option_nonempty |].
  destruct arg as [entries |]; cbn in Hin; [| by apply elem_of_nil in Hin].
  apply list_elem_of_In, in_flat_map in Hin as (entry & _ & Hin).
  apply filter_In in Hin as [Hin _].
  pose proof (split_commas_comma_free entry) as Hall.
  rewrite Forall_forall in Hall. by apply Hall, list_elem_of_In.
Qed.

(** X10: an entry none of whose parts is empty is given back by joining,
    with commas, the parts it expands to: nothing is lost or reordered. *)
Theorem expand_option_join (entry : string) :
  Forall (fun part => part <> "") (split_commas entry) ->
  String.concat "," (expand_option (Some [entry])) = entry.
Proof.
  intros Hall. cbn [expand_option flat_map]. rewrite app_nil_r.
  replace (List.filter _ (split_commas entry)) with (split_commas entry).
  - apply split_commas_join.
  - induction Hall as [| part parts Hpart _ IH]; [done |]. cbn.
    destruct (String.eqb_spec part ""); [done |]. cbn. by rewrite <- IH.
Qed.

(** X11: every set that [main] builds has a label that is not empty and at
    least one path, and no path of a set is the empty string. *)
Theorem perturb_sets_labelled
    (perturbSummary perturbTrials perturbLabel : option (list string))
    (label : string) (summary_path trials_path : option string) :
  (label, summary_path, trials_path)
    ∈ perturb_sets perturbSummary perturbTrials perturbLabel ->
  label <> "" /\
  (is_Some summary_path \/ is_Some trials_path) /\
  summary_path <> Some "" /\ trials_path <> Some "".
Proof.
  rewrite perturb_sets_zipped. intros Hin%list_elem_of_In.
  apply in_map_iff in Hin as (idx & [= <- <- <-] & Hidx%in_seq).
  split; [| split; [| split]].
  - unfold perturb_label.
    destruct (expand_option perturbLabel !! idx) as [l |] eqn:El.
    + eapply expand_option_nonempty, list_elem_of_lookup_2, El.
    + apply derive_label_nonempty. by rewrite str_app_cons.
  - destruct (expand_option perturbSummary !! idx) eqn:Es; [by left; eexists |].
    destruct (expand_option perturbTrials !! idx) eqn:Et; [by right; eexists |].
    apply lookup_ge_None in Es, Et. lia.
  - intros Hs. apply list_elem_of_lookup_2 in Hs.
    by apply expand_option_nonempty in Hs.
  - intros Ht. apply list_elem_of_lookup_2 in Ht.
    by apply expand_option_nonempty in Ht.
Qed.

(** X12: [main] builds one set for each index below the longer of the two
    lists of paths, so labels beyond the paths make no set; a set at an
    index that has a [--perturbLabel] part carries that part as its
    label. *)
Theorem perturb_sets_indexed
    (perturbSummary perturbTrials perturbLabel : option (list string)) :
  let summaries := expand_option perturbSummary in
  let trials := expand_option perturbTrials in
  let labels := expand_option perturbLabel in
  let sets := perturb_sets perturbSummary perturbTrials perturbLabel in
  length sets = Nat.max (length summaries) (length trials) /\
  forall idx label,
    (idx < length sets)%nat -> labels !! idx = Some label ->
    sets !! idx = Some (label, summaries !! idx, trials !! idx).
Proof.
  cbv zeta. rewrite perturb_sets_zipped, length_map, length_seq.
  split; [done |]. intros idx label Hidx Hlabel.
  rewrite lookup_map, lookup_seq_lt by done. cbn.
  unfold perturb_label. by rewrite Hlabel.
Qed.

(** *** Formats *)

Lemma rstrip_unfold (c : ascii) (s : string) :
  rstrip (String c s)
  = match rstrip s with
    | EmptyString => if is_space c then EmptyString else String c EmptyString
    | r => String c r
    end.
Proof. reflexivity. Qed.

Lemma rstrip_rstrip (s : string) : rstrip (rstrip s) = rstrip s.
Proof.
  induction s as [| c s IH]; [done |]. rewrite rstrip_unfold.
  destruct (rstrip s) as [| c' r] eqn:E.
  - destruct (is_space c) eqn:Ec; [done |]. cbn. by rewrite Ec.
  - by rewrite rstrip_unfold, IH.
Qed.

Lemma lstrip_head (s : string) :
  lstrip s = "" \/ exists c s', lstrip s = String c s' /\ is_space c = false.
Proof.
  induction s as [| c s IH]; [by left |]. cbn.
  destruct (is_space c) eqn:Ec; [done |]. right. by eexists _, _.
Qed.

Lemma rstrip_cons (c : ascii) (s : string) :
  is_space c = false -> rstrip (String c s) = String c (rstrip s).
Proof. intros Ec. cbn. rewrite Ec. by destruct (rstrip s). Qed.

Lemma strip_strip (s : string) : strip (strip s) = strip s.
Proof.
  unfold strip. destruct (lstrip_head s) as [-> | (c & s' & -> & Ec)]; [done |].
  rewrite rstrip_cons by done. cbn [lstrip]. rewrite Ec.
  rewrite !rstrip_cons by done. by rewrite rstrip_rstrip.
Qed.

Lemma comma_free_lstrip (s : string) :
  comma_free s = true -> comma_free (lstrip s) = true.
Proof.
  induction s as [| c s IH]; [done |]. cbn.
  destruct (is_space c); [| done].
  intros [_ Hs]%andb_prop. by apply IH.
Qed.

Lemma comma_free_rstrip (s : string) :
  comma_free s = true -> comma_free (rstrip s) = true.
Proof.
  induction s as [| c s IH]; [done |]. cbn.
  intros [Hc Hs]%andb_prop. specialize (IH Hs).
  destruct (rstrip s) as [| c' r].
  - destruct (is_space c); [done |]. cbn. by rewrite Hc.
  - cbn in *. by rewrite Hc, IH.
Qed.

(** X13: every format that the [--formats] option gives is clean: it is
    not empty, has no white space at either end and no comma. *)
Theorem parse_formats_clean (formats fmt : string) :
  fmt ∈ parse_formats formats ->
  fmt <> "" /\ strip fmt = fmt /\ comma_free fmt = true.
Proof.
  unfold parse_formats. intros Hin%list_elem_of_In.
  apply in_flat_map in Hin as (part & Hpart & Hin).
  destruct (String.eqb_spec (strip part) "") as [| Hne]; [done |].
  destruct Hin as [<- | []].
  split; [done |]. split; [apply strip_strip |].
  pose proof (split_commas_comma_free formats) as Hall.
  rewrite Forall_forall in Hall.
  unfold strip. by apply comma_free_rstrip, comma_free_lstrip, Hall, list_elem_of_In.
Qed.

End SetsAndFormats.

(** ** Properties of the recovery charts and of the perturbation window *)

Section RecoveryCharts.

Import ReportPlot.

Variable float_of_str : string -> option float.
Variable int_of_str : string -> option Z.

Abbreviation recovery_rates := (ReportPlot.recovery_rates float_of_str).
Abbreviation recovery_rate_step := (ReportPlot.recovery_rate_step float_of_str).
Abbreviation recovery_steps := (ReportPlot.recovery_steps int_of_str).
Abbreviation recovery_histograms := (ReportPlot.recovery_histograms int_of_str).

Lemma recovery_rate_loop summaries labels rates labels' rates' :
  for_each recovery_rate_step summaries (labels, rates) = Ok (labels', rates') ->
  exists more_labels more_rates,
    labels' = labels ++ more_labels /\ rates' = rates ++ more_rates /\
    length more_labels = length more_rates /\
    more_labels `sublist_of` map fst summaries.
Proof.
  revert labels rates.
  induction summaries as [| [label summary] summaries IH]; intros labels rates;
    cbn [for_each].
  - intros [= <- <-]. exists [], []. by rewrite !app_nil_r.
  - unfold ReportPlot.recovery_rate_step at 1.
    destruct (py_attr_get summary "metrics" _) as [metrics |]; cbn; [| done].
    destruct (py_attr_get metrics "recoveryRate" _) as [rate |]; cbn; [| done].
    assert (Hskip :
      for_each recovery_rate_step summaries (labels, rates) = Ok (labels', rates') ->
      exists more_labels more_rates,
        labels' = labels ++ more_labels /\ rates' = rates ++ more_rates /\
        length more_labels = length more_rates /\
        more_labels `sublist_of` label :: map fst summaries).
    { intros (ml & mr & -> & -> & Hlen & Hsub)%IH.
      exists ml, mr. repeat split; try done. by apply sublist_cons. }
    destruct rate; try exact Hskip;
      (destruct (ReportPlot.py_float _ _) as [r |]; cbn; [| done];
       intros (ml & mr & -> & -> & Hlen & Hsub)%IH;
       exists (label :: ml), (r :: mr);
       rewrite <- !app_assoc; repeat split; cbn; try done;
       [by rewrite Hlen | by apply sublist_skip]).
Qed.


(** X15: the recovery steps of a condition are read from the rows that
    have a [recoverySteps] field that is not empty and parses as an
    integer; every other row is dropped, so there are at most as many steps
    as rows. *)
Theorem recovery_steps_rows (trials : list (list (string * option string))) :
  (length (recovery_steps trials) <= length trials)%nat /\
  forall n : Z,
    n ∈ recovery_steps trials <->
    exists row raw,
      row ∈ trials /\ dict_get row "recoverySteps" = Some (Some raw) /\
      raw <> "" /\ int_of_str raw = Some n.
Proof.
  split.
  - unfold ReportPlot.recovery_steps.
    induction trials as [| row trials IH]; cbn [flat_map]; [done |].
    rewrite length_app. cbn [length].
    destruct (dict_get row "recoverySteps") as [[raw |] |]; cbn; [| lia..].
    destruct (String.eqb raw ""); cbn; [lia |].
    destruct (int_of_str raw); cbn; lia.
  - intros n. unfold ReportPlot.recovery_steps.
    rewrite list_elem_of_In, in_flat_map. split.
    + intros (row & Hrow%list_elem_of_In & Hn).
      destruct (dict_get row "recoverySteps") as [[raw |] |] eqn:Eraw; [| done..].
      destruct (String.eqb_spec raw ""); [done |].
      destruct (int_of_str raw) as [m |] eqn:Em; [| done].
      destruct Hn as [<- | []]. by exists row, raw.
    + intros (row & raw & Hrow%list_elem_of_In & Eraw & Hne & Em).
      exists row. split; [done |]. rewrite Eraw.
      destruct (String.eqb_spec raw ""); [done |]. rewrite Em. by left.
Qed.

(** X16: every histogram drawn has data (a condition none of whose rows
    gives a step is skipped) and between 5 and 20 bins: as many as there
    are distinct step counts when that lies between 5 and 20. *)
Theorem recovery_histograms_bins
    (trials_sets : list (string * list (list (string * option string))))
    (steps : list Z) (bins : Z) (label : string) :
  (steps, bins, label) ∈ recovery_histograms trials_sets ->
  steps <> [] /\
  (exists trials, (label, trials) ∈ trials_sets /\ steps = recovery_steps trials) /\
  5 <= bins <= 20 /\
  (5 <= Z.of_nat (length (remove_dups steps)) <= 20 ->
   bins = Z.of_nat (length (remove_dups steps))).
Proof.
  unfold ReportPlot.recovery_histograms. intros Hin%list_elem_of_In.
  apply in_flat_map in Hin as ([label' trials] & Hset%list_elem_of_In & Hin).
  destruct (recovery_steps trials) as [| n ns] eqn:Esteps; [done |].
  destruct Hin as [[= <- <- <-] | []].
  split; [done |]. split; [by exists trials |].
  unfold hist_bins. lia.
Qed.

Lemma float_ltb_leb (x y : float) :
  PrimFloat.ltb x y = true -> PrimFloat.leb x y = true.
Proof.
  rewrite FloatAxioms.ltb_spec, FloatAxioms.leb_spec.
  unfold SFltb, SFleb. by destruct (SFcompare _ _) as [[| |] |].
Qed.

Lemma max_half_at_least (duration w : json) :
  max_half duration = Ok w -> at_least_half w.
Proof.
  destruct duration as [| b | z | f | s | l | d]; cbn; try done.
  - destruct b; intros [= <-]; reflexivity.
  - destruct (Z.leb_spec 1 z); intros [= <-]; [done | reflexivity].
  - destruct (PrimFloat.ltb 0.5 f) eqn:E; intros [= <-]; cbn;
      [by apply float_ltb_leb | reflexivity].
Qed.

(** X17: the perturbation window is shaded only when there is exactly one
    summary, and its right end, [max(0.5, durationSteps)], is a number that
    is at least 0.5. *)
Theorem perturb_window_width (summaries : list (string * json)) :
  (length summaries <> 1%nat -> perturb_window summaries = Ok None) /\
  (forall w, perturb_window summaries = Ok (Some w) ->
     length summaries = 1%nat /\ at_least_half w).
Proof.
  unfold perturb_window. destruct summaries as [| [label summary] [| ? ?]];
    [by split | | by split].
  split; [done |]. intros w.
  destruct (py_attr_get summary "config" _) as [config |]; cbn; [| done].
  destruct (py_attr_get config "durationSteps" _) as [duration |]; cbn; [| done].
  destruct (max_half duration) as [w' |] eqn:E; cbn; [| done].
  intros [= <-]. split; [done |]. by eapply max_half_at_least.
Qed.

End RecoveryCharts.

(** ** Properties of the titles and of [plot_run_history] *)

Section RunHistory.

Import ReportPlot.

Variable float_of_str : string -> option float.
Variable float_str : float -> string.
Variable container_str : json -> string.

Abbreviation _build_title := (ReportPlot._build_title float_str container_str).
Abbreviation plot_phase_history :=
  (ReportPlot.plot_phase_history float_of_str float_str container_str).
Abbreviation plot_run_history :=
  (ReportPlot.plot_run_history float_of_str float_str container_str).

Lemma str_app_nonempty (s t : string) : t <> "" -> String.eqb (s +:+ t) "" = false.
Proof.
  intros Ht. destruct (String.eqb_spec (s +:+ t) "") as [E | _]; [| done].
  apply (f_equal String.length) in E. rewrite str_length_app in E.
  destruct t; [done | cbn in E; lia].
Qed.

(** X18: for a configuration that has no controller, no phase
    configuration and no curriculum (or that is not a mapping at all), the
    title is the topology, the standard controller, the sustain gate off
    and the label of the phase. *)
Theorem build_title_defaults (topology : string) (config : json)
    (phase_label : string) :
  config_section config "controller" = JDict [] ->
  config_section config "phaseBCConfig" = JDict [] ->
  config_section config "curriculum" = JDict [] ->
  phase_label <> "" ->
  _build_title topology config phase_label
  = Ok (topology +:+ " | ctrl=standard | sustain=off | " +:+ phase_label).
Proof.
  intros Hc Hp Hcur Hlabel.
  unfold ReportPlot._build_title, ReportPlot.title_segments.
  rewrite Hc, Hp, Hcur. cbn.
  change (" | ctrl=" +:+ "standard") with " | ctrl=standard".
  change ("sustain=" +:+ "off") with "sustain=off".
  rewrite (str_app_nonempty topology " | ctrl=standard") by done.
  destruct (String.eqb_spec phase_label ""); [done |].
  cbn [String.eqb Ascii.eqb Bool.eqb app String.concat]. f_equal.
  by rewrite !str_app_assoc.
Qed.

(** One phase gives at most one output; it gives one when it is asked to
    report, and none for an absent phase that is not. *)
Lemma plot_phase_history_outputs letter phase report config suffix out_dir
    formats topology outs :
  plot_phase_history letter phase report config suffix out_dir formats topology
  = Ok outs ->
  (length outs <= 1)%nat /\
  (report = true -> length outs = 1%nat) /\
  (phase = JNull -> report = false -> outs = []).
Proof.
  unfold ReportPlot.plot_phase_history.
  destruct (ReportPlot._normalize_acc_history _ _) as [[acc note] |] eqn:Enorm;
    cbn [mbind result_bind]; [| done].
  destruct (normalize_shapes float_of_str _ _ _ Enorm)
    as [[-> (text & -> & Htext)] | [-> Hacc]]; cbv beta iota.
  - destruct (String.eqb_spec text ""); [done |]. cbn [negb andb].
    destruct report; intros [= <-]; cbn; repeat split; try done; lia.
  - assert (exists item series, acc = Some (item :: series))
      as (item & series & ->).
    { destruct Hacc as [[? ->] | [[? ->] | (? & ? & ->)]]; by eexists _, _. }
    cbv beta iota.
    destruct (ReportPlot._build_title _ _ _ _ _) as [title |];
      cbn [mbind result_bind]; [| done].
    destruct (_plot_history_series _ _ _ _ _) as [calls |];
      cbn [mbind result_bind]; [| done].
    intros [= <-]. cbn [length]. repeat split; try done; try lia.
    intros ->. by cbn in Enorm.
Qed.

(** X19: for a payload that is not a mapping, [plot_run_history] raises
    nothing and draws nothing: it prints that the history of phase C is
    missing, and says nothing of phase B. *)
Theorem run_history_not_mapping (payload : json) (out_dir : string)
    (formats : list string) (topology : string) :
  (forall d, payload <> JDict d) ->
  plot_run_history payload out_dir formats topology
  = Ok [Print "[report_plot] Phase C history skipped (missing)"].
Proof.
  intros Hp. by destruct payload as [| | | | | |d]; [.. | destruct (Hp d)].
Qed.

(** X20: a run of [plot_run_history] that returns has given one or two
    outputs: phase C always gives one, a figure or a printed note, and
    phase B gives none when the payload has no [phaseB]. *)
Theorem run_history_outputs (payload : json) (out_dir : string)
    (formats : list string) (topology : string) (outs : list output) :
  plot_run_history payload out_dir formats topology = Ok outs ->
  (1 <= length outs <= 2)%nat /\
  ((forall d, payload = JDict d -> py_get d "phaseB" = JNull) ->
   length outs = 1%nat).
Proof.
  unfold ReportPlot.plot_run_history.
  destruct (py_attr_get _ "topology" _) as [name |]; cbn; [| done].
  destruct (py_attr_get _ "useCountingPhase" _) as [counting |]; cbn; [| done].
  destruct (ReportPlot.plot_phase_history _ _ _ "C" _ _ _ _ _ _ _)
    as [out_c |] eqn:Ec; cbn; [| done].
  destruct (ReportPlot.plot_phase_history _ _ _ "B" _ _ _ _ _ _ _)
    as [out_b |] eqn:Eb; cbn; [| done].
  intros [= <-]. rewrite length_app.
  destruct (plot_phase_history_outputs _ _ _ _ _ _ _ _ _ Ec) as (_ & Hc & _).
  destruct (plot_phase_history_outputs _ _ _ _ _ _ _ _ _ Eb) as (Hb & _ & Hnone).
  specialize (Hc eq_refl). split; [lia |].
  intros Hphase. rewrite Hc.
  assert (out_b = []) as ->; [| done].
  destruct payload as [| | | | | |d]; try (by apply Hnone).
  rewrite (Hphase d eq_refl) in Hnone. by apply Hnone.
Qed.

End RunHistory.

(** ** Further properties of [generate_topology] *)

Section TopologyShape.

Import Topology.

Variable rng : Type.
Variable np_random_normal : float -> float -> rng -> float * rng.

Abbreviation set_weight := (Topology.set_weight rng np_random_normal).
Abbreviation generate_topology := (Topology.generate_topology rng np_random_normal).
Abbreviation weight_set := (weight_set rng np_random_normal).

Lemma weights_loop_square topology_type n_digits prefs (n : nat)
    (weights weights' : matrix) (g g' : rng) :
  square n weights ->
  for_range
    (fun i => for_range (set_weight topology_type n_digits prefs i) 0 n)
    0 n (weights, g) = Ok (weights', g') ->
  square n weights'.
Proof.
  intros Hsq Hrun.
  pose (I := fun (_ : nat) (st : matrix * rng) => square n st.1).
  change (I (0 + n)%nat (weights', g')).
  refine (for_range_invariant _ I n 0 (weights, g) _ Hsq _ Hrun).
  intros i st st' _ Hst Hrow.
  change (I (0 + n)%nat st').
  refine (for_range_invariant _ I n 0 st _ Hst _ Hrow).
  intros j [w0 g0] [w1 g1] _ Hw0 Hstep.
  by destruct (set_weight_step _ _ _ _ _ _ _ _ _ _ _ _ Hw0 Hstep) as [? _].
Qed.

(** What a call that returns has gone through. *)
Lemma generate_topology_run (topology_type : string) (n_neurons n_digits : Z)
    (g g' : rng) (weights : matrix) (prefs : list Z) :
  generate_topology topology_type n_neurons n_digits g = Ok (weights, prefs, g') ->
  n_digits <> 0 /\ 0 <= n_neurons /\
  np_repeat (np_arange n_digits) (n_neurons / n_digits) = Ok prefs /\
  square (Z.to_nat n_neurons) weights /\
  forall r c, (r < Z.to_nat n_neurons)%nat -> (c < Z.to_nat n_neurons)%nat ->
    weight_set topology_type n_digits prefs weights r c.
Proof.
  unfold Topology.generate_topology.
  destruct (Z.eqb_spec n_digits 0) as [| Hnd]; [done |].
  destruct (np_zeros n_neurons) as [w0 |] eqn:Ezeros; cbn; [| done].
  destruct (np_repeat _ _) as [prefs0 |] eqn:Eprefs; cbn; [| done].
  destruct (for_range _ _ _ _) as [[w1 g1] |] eqn:Eloop; cbn; [| done].
  intros [= <- <- <-]. split; [done |]. split.
  { unfold np_zeros in Ezeros. by destruct (Z.ltb_spec n_neurons 0); [| lia]. }
  split; [done |]. apply square_zeros in Ezeros. split.
  - by eapply weights_loop_square.
  - by eapply weights_loop_invariant.
Qed.

Lemma length_preferences (n_digits repeats : Z) (prefs : list Z) :
  np_repeat (np_arange n_digits) repeats = Ok prefs ->
  0 <= repeats /\ length prefs = (Z.to_nat repeats * Z.to_nat n_digits)%nat.
Proof.
  unfold np_repeat, np_arange. destruct (Z.ltb_spec repeats 0); [done |].
  intros [= <-]. split; [done |].
  by rewrite length_repeat_each, length_map, length_seq.
Qed.

(** Entry [i] of [np.repeat(a, k)] is entry [i // k] of [a]. *)
Lemma lookup_repeat_each (k : nat) (a : list Z) (i : nat) :
  (0 < k)%nat -> flat_map (replicate k) a !! i = a !! (i / k)%nat.
Proof.
  intros Hk. revert i. induction a as [| d a IH]; intros i; cbn [flat_map].
  - by rewrite !lookup_nil.
  - destruct (decide (i < k)%nat) as [Hi | Hi].
    + rewrite lookup_app_l by (by rewrite length_replicate).
      rewrite lookup_replicate_2 by done.
      by rewrite Nat.div_small.
    + rewrite lookup_app_r by (rewrite length_replicate; lia).
      rewrite length_replicate, IH.
      replace (i / k)%nat with (Datatypes.S ((i - k) / k)); [done |].
      replace i with ((i - k) + 1 * k)%nat at 2 by lia.
      rewrite Nat.div_add by lia. lia.
Qed.

(** A call that returns has as many preferences as neurons. *)
Lemma generate_topology_preferences (topology_type : string)
    (n_neurons n_digits : Z) (g g' : rng) (weights : matrix) (prefs : list Z) :
  generate_topology topology_type n_neurons n_digits g = Ok (weights, prefs, g') ->
  length prefs = Z.to_nat n_neurons /\
  (0 < n_neurons -> 0 < n_digits /\ 0 < n_neurons / n_digits /\
                    n_neurons mod n_digits = 0).
Proof.
  intros (Hnd & Hnn & Hprefs & _ & Hset)%generate_topology_run.
  destruct (length_preferences _ _ _ Hprefs) as [Hq Hlen].
  assert (Hlong : 0 < n_neurons -> (Z.to_nat n_neurons <= length prefs)%nat).
  { intros Hpos.
    destruct (Hset (Z.to_nat n_neurons - 1)%nat (Z.to_nat n_neurons - 1)%nat)
      as (d & _ & _ & Hd & _); [lia.. |].
    apply lookup_lt_Some in Hd. lia. }
  destruct (Z.lt_trichotomy n_neurons 0) as [| [-> | Hpos]]; [lia | |].
  - split; [| lia]. rewrite Hlen, Z.div_0_l by done. done.
  - specialize (Hlong Hpos).
    assert (0 < n_digits) as Hd by (destruct (Z.lt_trichotomy n_digits 0) as [|[|]]; [| lia | done];
      rewrite Hlen, (Z2Nat.nonpos n_digits) in Hlong; lia).
    pose proof (Z.mul_div_le n_neurons n_digits Hd) as Hle.
    assert (n_digits * (n_neurons / n_digits) = n_neurons) as Heq.
    { apply Z.le_antisymm; [done |].
      rewrite Hlen, <- Z2Nat.inj_mul in Hlong by lia. lia. }
    split; [rewrite Hlen, <- Z2Nat.inj_mul by lia; f_equal; lia |].
    intros _. split; [done |]. split; [nia |].
    pose proof (Z.div_mod n_neurons n_digits). lia.
Qed.

(** X21: a call of [generate_topology] that returns gives a square matrix
    with a row and a column for each neuron and one preferred digit for
    each neuron: neuron [i] prefers digit [i // neurons_per_digit], so the
    digits come in consecutive blocks of equal size. *)
Theorem generate_topology_shape (topology_type : string) (n_neurons n_digits : Z)
    (g g' : rng) (weights : matrix) (neuron_preferences : list Z) :
  generate_topology topology_type n_neurons n_digits g
  = Ok (weights, neuron_preferences, g') ->
  square (Z.to_nat n_neurons) weights /\
  length neuron_preferences = Z.to_nat n_neurons /\
  forall i : nat,
    Z.of_nat i < n_neurons ->
    neuron_preferences !! i = Some (Z.of_nat i / (n_neurons / n_digits)).
Proof.
  intros Hrun.
  destruct (generate_topology_run _ _ _ _ _ _ _ Hrun) as (_ & _ & Hprefs & Hsq & _).
  destruct (generate_topology_preferences _ _ _ _ _ _ _ Hrun) as [Hlen Hpos].
  split; [done |]. split; [done |]. intros i Hi.
  destruct Hpos as (Hd & Hq & _); [lia |].
  unfold np_repeat in Hprefs. destruct (Z.ltb_spec (n_neurons / n_digits) 0); [lia |].
  injection Hprefs as <-.
  rewrite lookup_repeat_each by lia. unfold np_arange in *.
  assert ((i / Z.to_nat (n_neurons / n_digits) < Z.to_nat n_digits)%nat) as Hlt.
  { apply Nat.Div0.div_lt_upper_bound.
    rewrite length_repeat_each, length_map, length_seq in Hlen. lia. }
  rewrite lookup_map, lookup_seq_lt by done. cbn. f_equal.
  rewrite Nat2Z.inj_div, Z2Nat.id by lia. done.
Qed.

(** X22: [generate_topology] returns exactly when the number of digits is
    not zero, the number of neurons is not negative and, unless there is no
    neuron at all, the number of digits is positive and divides the number
    of neurons; every other call raises. *)
Theorem generate_topology_returns_iff (topology_type : string)
    (n_neurons n_digits : Z) (g : rng) :
  (exists weights neuron_preferences g',
     generate_topology topology_type n_neurons n_digits g
     = Ok (weights, neuron_preferences, g')) <->
  n_digits <> 0 /\ 0 <= n_neurons /\
  (n_neurons = 0 \/ (0 < n_digits /\ n_neurons mod n_digits = 0)).
Proof.
  split.
  - intros (weights & prefs & g' & Hrun).
    destruct (generate_topology_run _ _ _ _ _ _ _ Hrun) as (Hnd & Hnn & _).
    destruct (generate_topology_preferences _ _ _ _ _ _ _ Hrun) as [_ Hpos].
    split; [done |]. split; [done |].
    destruct (decide (n_neurons = 0)) as [| Hne]; [by left | right].
    destruct Hpos as (? & _ & ?); [lia | done].
  - intros (Hnd & Hnn & [-> | [Hd Hdiv]]).
    + unfold Topology.generate_topology.
      destruct (Z.eqb_spec n_digits 0); [done |].
      rewrite Z.div_0_l by done. cbn. by eexists _, _, _.
    + by apply generate_topology_returns.
Qed.

(** X23: for two digits of a ring of [n_digits], the ring distance is at
    most half the number of digits and never more than the snake
    distance. *)
Theorem ring_distance_bounds (n_digits a b : Z) :
  0 <= a < n_digits -> 0 <= b < n_digits ->
  0 <= digit_distance "Ring" n_digits a b <= n_digits / 2 /\
  digit_distance "Ring" n_digits a b <= digit_distance "Snake" n_digits a b.
Proof.
  intros Ha Hb. unfold digit_distance. cbn.
  assert (n_digits / 2 * 2 <= n_digits < (n_digits / 2 + 1) * 2).
  { pose proof (Z.div_mod n_digits 2). pose proof (Z.mod_pos_bound n_digits 2). lia. }
  lia.
Qed.

(** X24: with two digits or more, the first and the last digit are
    neighbours on the ring and as far apart as can be on the snake. *)
Theorem last_digit_wraps (n_digits : Z) :
  2 <= n_digits ->
  digit_distance "Ring" n_digits 0 (n_digits - 1) = 1 /\
  digit_distance "Snake" n_digits 0 (n_digits - 1) = n_digits - 1.
Proof. intros Hn. unfold digit_distance. cbn. lia. Qed.

End TopologyShape.

(** ** Properties of the graph of the strong connections *)

#[local] Set Warnings "-clear-no-such-hyp".

Section GraphFacts.

Import Topology.

Lemma adj_add_node (G : graph) (i : nat) : adj (add_node G i) = adj G.
Proof. unfold add_node. by destruct (decide _). Qed.

Lemma strong_entries_spec (weights : matrix) (r c : nat) (w : float) :
  (r, c, w) ∈ strong_entries weights <->
  mat_get weights r c = Some w /\ PrimFloat.ltb threshold w = true.
Proof.
  unfold strong_entries, mat_get. rewrite list_elem_of_join. split.
  - intros (l & Hin & (r' & row & -> & Hrow)%elem_of_lookup_imap).
    apply list_elem_of_join in Hin as (l & Hin & (c' & w' & -> & Hw)%elem_of_lookup_imap).
    destruct (PrimFloat.ltb threshold w') eqn:E; [| by apply elem_of_nil in Hin].
    apply list_elem_of_singleton in Hin as [= -> -> ->].
    rewrite Hrow. by cbn.
  - intros [Hget Hw]. destruct (weights !! r) as [row |] eqn:Hrow; [| done].
    cbn in Hget. eexists. split; [| by eapply elem_of_lookup_imap_2].
    apply list_elem_of_join. eexists. split; [| by eapply elem_of_lookup_imap_2].
    rewrite Hw. apply list_elem_of_here.
Qed.

(** One pass of the loop over the strong entries. *)
Lemma connect_adj (G : graph) (r c : nat) (w : float) (u v : nat) :
  is_Some (adj (connect G (r, c, w)) !! (u, v)) <->
  is_Some (adj G !! (u, v)) \/
  (r <> c /\ ((u, v) = (r, c) \/ (u, v) = (c, r))).
Proof.
  unfold connect. destruct (decide (r = c)) as [-> | Hne]; [naive_solver |].
  unfold add_edge. cbn [adj]. rewrite !adj_add_node.
  rewrite !lookup_insert_is_Some'. naive_solver.
Qed.

Lemma connect_symmetric (G : graph) (entry : nat * nat * float) :
  (forall u v, adj G !! (u, v) = adj G !! (v, u)) ->
  forall u v, adj (connect G entry) !! (u, v) = adj (connect G entry) !! (v, u).
Proof.
  intros Hsym u v. destruct entry as [[r c] w]. unfold connect.
  destruct (decide (r = c)); [done |].
  unfold add_edge. cbn [adj]. rewrite !adj_add_node, !lookup_insert.
  repeat case_decide; simplify_eq; done.
Qed.

Lemma connect_all_adj (entries : list (nat * nat * float)) (G : graph) (u v : nat) :
  is_Some (adj (fold_left connect entries G) !! (u, v)) <->
  is_Some (adj G !! (u, v)) \/
  (u <> v /\ exists w, (u, v, w) ∈ entries \/ (v, u, w) ∈ entries).
Proof.
  revert G. induction entries as [| [[r c] w] entries IH]; intros G; cbn [fold_left].
  - split; [by left |]. intros [? | (_ & w & [?%elem_of_nil | ?%elem_of_nil])]; done.
  - rewrite IH, connect_adj. setoid_rewrite elem_of_cons. split.
    + intros [[? | (Hne & [[= -> ->] | [= -> ->]])] | (Hne & w' & Hw)].
      * by left.
      * right. split; [done |]. exists w. by left; left.
      * right. split; [done |]. exists w. by right; left.
      * right. split; [done |]. exists w'. naive_solver.
    + intros [? | (Hne & w' & [[[= -> -> ->] | ?] | [[= -> -> ->] | ?]])].
      * by left; left.
      * left; right. split; [done |]. by left.
      * right. split; [done |]. exists w'. by left.
      * left; right. split; [done |]. by right.
      * right. split; [done |]. exists w'. by right.
Qed.

Lemma connect_all_symmetric (entries : list (nat * nat * float)) (G : graph) :
  (forall u v, adj G !! (u, v) = adj G !! (v, u)) ->
  forall u v, adj (fold_left connect entries G) !! (u, v)
              = adj (fold_left connect entries G) !! (v, u).
Proof.
  revert G. induction entries as [| entry entries IH]; intros G Hsym; [done |].
  cbn [fold_left]. by apply IH, connect_symmetric.
Qed.

(** The loop over the neurons only adds nodes. *)
Lemma add_nodes_adj (labels : list Z) (count start : nat) (G G' : graph) :
  for_range (fun i G => digit ← np_getitem labels i; Ok (add_node G i))
    start count G = Ok G' ->
  adj G' = adj G.
Proof.
  revert start G. induction count as [| count IH]; intros start G; cbn [for_range].
  - by intros [= <-].
  - destruct (np_getitem labels start); cbn; [| done].
    intros ->%IH. apply adj_add_node.
Qed.

Lemma build_graph_adj (weights : matrix) (labels : list Z) (G : graph) (u v : nat) :
  build_graph weights labels = Ok G ->
  (is_Some (adj G !! (u, v)) <->
   u <> v /\ (strong weights u v \/ strong weights v u)) /\
  adj G !! (u, v) = adj G !! (v, u).
Proof.
  unfold build_graph.
  destruct (for_range _ _ _ _) as [G0 |] eqn:Enodes; cbn; [| done].
  intros [= <-]. apply add_nodes_adj in Enodes. cbn in Enodes. split.
  - rewrite connect_all_adj, Enodes. unfold strong.
    setoid_rewrite strong_entries_spec. split.
    + intros [[? [=]] | (Hne & w & Hw)]. split; [done |]. naive_solver.
    + intros (Hne & Hs). right. split; [done |]. naive_solver.
  - apply connect_all_symmetric. intros ? ?. by rewrite Enodes.
Qed.

(** X25: in the graph that is laid out, two neurons are joined exactly
    when they are distinct and the weight between them is above 0.4 in one
    direction or the other; the graph is undirected and no neuron is joined
    to itself. *)
Theorem build_graph_edges (weights : matrix) (labels : list Z) (G : graph) :
  build_graph weights labels = Ok G ->
  forall u v : nat,
    (is_Some (adj G !! (u, v)) <->
     u <> v /\ (strong weights u v \/ strong weights v u)) /\
    adj G !! (u, v) = adj G !! (v, u) /\
    adj G !! (u, u) = None.
Proof.
  intros Hbuild u v.
  destruct (build_graph_adj _ _ _ u v Hbuild) as [Hedge Hsym].
  split; [done |]. split; [done |].
  destruct (build_graph_adj _ _ _ u u Hbuild) as [Hself _].
  apply eq_None_not_Some. intros [Hne _]%Hself. done.
Qed.

End GraphFacts.


(** ** The graph and the legend of a generated topology *)

Section TopologyGraph.

Import Topology.

Variable rng : Type.
Variable np_random_normal : float -> float -> rng -> float * rng.

Abbreviation generate_topology := (Topology.generate_topology rng np_random_normal).

(** The loop over the neurons adds them in order, and stops with
    [IndexError] at the first neuron that has no label. *)
Lemma add_nodes_ok (labels : list Z) (count start : nat) (G : graph) :
  nodes G = seq 0 start -> (start + count <= length labels)%nat ->
  exists G',
    for_range (fun i G => digit ← np_getitem labels i; Ok (add_node G i))
      start count G = Ok G' /\
    nodes G' = seq 0 (start + count).
Proof.
  revert start G. induction count as [| count IH]; intros start G Hnodes Hlen;
    cbn [for_range].
  - rewrite Nat.add_0_r. by exists G.
  - unfold np_getitem at 1.
    destruct (lookup_lt_is_Some_2 labels start) as [digit ->]; [lia |]. cbn.
    destruct (IH (Datatypes.S start) (add_node G start)) as (G' & HG' & Hn'); [| lia |].
    + unfold add_node. destruct (decide (start ∈ nodes G)) as [Hin | _].
      * rewrite Hnodes in Hin. apply list_elem_of_In, in_seq in Hin. lia.
      * cbn [nodes]. by rewrite Hnodes, seq_S.
    + exists G'. split; [done |]. by rewrite <- Nat.add_succ_comm.
Qed.

Lemma add_nodes_raise (labels : list Z) (count start : nat) (G : graph) :
  (start <= length labels < start + count)%nat ->
  for_range (fun i G => digit ← np_getitem labels i; Ok (add_node G i))
    start count G = Raise IndexError.
Proof.
  revert start G. induction count as [| count IH]; intros start G Hlen; [lia |].
  cbn [for_range]. unfold np_getitem at 1.
  destruct (labels !! start) as [digit |] eqn:Elabel; cbn.
  - apply lookup_lt_Some in Elabel. apply IH. lia.
  - done.
Qed.

Lemma nodes_connect (G : graph) (r c : nat) (w : float) :
  r ∈ nodes G -> c ∈ nodes G -> nodes (connect G (r, c, w)) = nodes G.
Proof.
  intros Hr Hc. unfold connect. destruct (decide (r = c)); [done |].
  unfold add_edge, add_node. cbn.
  destruct (decide (r ∈ nodes G)); [| done].
  by destruct (decide (c ∈ nodes G)).
Qed.

Lemma nodes_connect_all (entries : list (nat * nat * float)) (G : graph) :
  Forall (fun '(r, c, _) => r ∈ nodes G /\ c ∈ nodes G) entries ->
  nodes (fold_left connect entries G) = nodes G.
Proof.
  revert G. induction entries as [| [[r c] w] entries IH]; intros G Hall; [done |].
  apply Forall_cons in Hall as [[Hr Hc] Hall]. cbn [fold_left].
  rewrite IH; rewrite nodes_connect by done; done.
Qed.

Lemma strong_entries_inside (n : nat) (weights : matrix) :
  square n weights ->
  Forall (fun '(r, c, _) => (r < n)%nat /\ (c < n)%nat) (strong_entries weights).
Proof.
  intros [Hlen Hrows]. apply Forall_forall. intros [[r c] w] [Hget _]%strong_entries_spec.
  unfold mat_get in Hget. destruct (weights !! r) as [row |] eqn:Hrow; [| done].
  cbn in Hget. pose proof (Forall_lookup_1 _ _ _ _ Hrows Hrow) as Hrowlen.
  cbv beta in Hrowlen. apply lookup_lt_Some in Hrow, Hget. lia.
Qed.

Lemma build_graph_returns (n : nat) (weights : matrix) (labels : list Z) :
  square n weights -> (n <= length labels)%nat ->
  exists G, build_graph weights labels = Ok G /\ nodes G = seq 0 n.
Proof.
  intros Hsq Hlabels. pose proof Hsq as [Hlen _]. unfold build_graph. rewrite Hlen.
  destruct (add_nodes_ok labels n 0 (Graph [] ∅)) as (G0 & -> & Hnodes);
    [done | lia |].
  cbn. eexists. split; [done |].
  rewrite nodes_connect_all; [done |].
  eapply Forall_impl; [by apply strong_entries_inside |].
  intros [[r c] w] [Hr Hc]. rewrite Hnodes.
  split; apply list_elem_of_In, in_seq; lia.
Qed.

(** X26: the nodes of the graph are the neurons, in order, when every
    neuron has a label; when the labels are fewer than the rows of the
    matrix, building the graph raises [IndexError]. *)
Theorem build_graph_nodes (n : nat) (weights : matrix) (labels : list Z) :
  square n weights ->
  ((n <= length labels)%nat ->
   exists G, build_graph weights labels = Ok G /\ nodes G = seq 0 n) /\
  ((length labels < n)%nat -> build_graph weights labels = Raise IndexError).
Proof.
  intros Hsq. split; intros Hlabels.
  - by apply build_graph_returns.
  - destruct Hsq as [Hlen _]. unfold build_graph.
    rewrite Hlen, add_nodes_raise by lia. done.
Qed.

(** X27: the graph of a generated topology never joins two neurons whose
    preferred digits are two or more apart: their weights are exactly 0.0
    in both directions, which is not above the threshold. *)
Theorem distant_neurons_not_joined (topology_type : string)
    (n_neurons n_digits : Z) (g g' : rng)
    (weights : matrix) (neuron_preferences : list Z) :
  generate_topology topology_type n_neurons n_digits g
  = Ok (weights, neuron_preferences, g') ->
  exists G,
    build_graph weights neuron_preferences = Ok G /\
    forall (i j : nat) (digit_i digit_j : Z),
      neuron_preferences !! i = Some digit_i ->
      neuron_preferences !! j = Some digit_j ->
      2 <= digit_distance topology_type n_digits digit_i digit_j ->
      adj G !! (i, j) = None.
Proof.
  intros Hrun.
  destruct (generate_topology_run _ _ _ _ _ _ _ _ _ Hrun) as (_ & _ & _ & Hsq & Hset).
  destruct (generate_topology_preferences _ _ _ _ _ _ _ _ _ Hrun) as [Hlen _].
  destruct (build_graph_returns _ _ neuron_preferences Hsq) as (G & HG & _);
    [lia |].
  exists G. split; [done |]. intros i j digit_i digit_j Hi Hj Hdist.
  assert (Hweak : forall u v du dv,
            neuron_preferences !! u = Some du ->
            neuron_preferences !! v = Some dv ->
            2 <= digit_distance topology_type n_digits du dv ->
            ~ strong weights u v).
  { intros u v du dv Hu Hv Hd (w & Hw & Hstrong).
    destruct (Hset u v) as (du' & dv' & w' & Hu' & Hv' & Hw' & _ & _ & Hzero).
    - apply lookup_lt_Some in Hu. lia.
    - apply lookup_lt_Some in Hv. lia.
    - simplify_eq. rewrite Hzero in Hstrong by lia. discriminate Hstrong. }
  apply eq_None_not_Some.
  intros [_ [Hs | Hs]]%(proj1 (build_graph_adj _ _ _ i j HG)).
  - exact (Hweak i j _ _ Hi Hj Hdist Hs).
  - apply (Hweak j i _ _ Hj Hi); [| done].
    by rewrite digit_distance_sym.
Qed.

(** *** The legend *)

Lemma insert_sorted_head (x : Z) (l : list Z) :
  x <= hd x l -> insert_sorted x l = x :: l.
Proof.
  destruct l as [| y l]; [done |]. cbn. intros Hxy.
  by destruct (Z.leb_spec x y); [| lia].
Qed.

Lemma sort_block (x : Z) (j : nat) (rest : list Z) :
  insertion_sort rest = rest -> x <= hd x rest ->
  insertion_sort (replicate j x ++ rest) = replicate j x ++ rest.
Proof.
  intros Hrest Hhd. induction j as [| j IH]; [done |].
  cbn [replicate app]. unfold insertion_sort in *. cbn [fold_right].
  rewrite IH. apply insert_sorted_head.
  destruct j; [done | cbn; lia].
Qed.

Lemma dedup_block (x : Z) (j : nat) (rest : list Z) :
  hd (x + 1) rest <> x ->
  dedup_adjacent (replicate (Datatypes.S j) x ++ rest) = x :: dedup_adjacent rest.
Proof.
  intros Hhd. induction j as [| j IH].
  - cbn. destruct rest as [| y rest]; [done |]. cbn in Hhd.
    by destruct (Z.eqb_spec x y).
  - change (replicate (Datatypes.S (Datatypes.S j)) x ++ rest)
      with (x :: x :: replicate j x ++ rest).
    cbn [dedup_adjacent]. rewrite Z.eqb_refl. exact IH.
Qed.

Lemma head_blocks (k start count : nat) (x : Z) :
  hd x (flat_map (replicate (Datatypes.S k)) (map Z.of_nat (seq start count)))
  = hd x (map Z.of_nat (seq start count)).
Proof. by destruct count. Qed.

Lemma unique_blocks (k start count : nat) :
  let blocks := flat_map (replicate (Datatypes.S k)) (map Z.of_nat (seq start count)) in
  insertion_sort blocks = blocks /\
  dedup_adjacent blocks = map Z.of_nat (seq start count).
Proof.
  cbv zeta. revert start. induction count as [| count IH]; intros start; [done |].
  destruct (IH (Datatypes.S start)) as [Hsort Hdedup].
  cbn [seq map flat_map]. split.
  - apply sort_block; [done |]. rewrite head_blocks. destruct count; cbn; lia.
  - rewrite dedup_block, Hdedup; [done |].
    rewrite head_blocks. destruct count; cbn; lia.
Qed.

(** X28: the legend of a generated topology with at least one neuron
    lists the digits [0] to [n_digits - 1], each once and in increasing
    order. *)
Theorem legend_lists_digits (topology_type : string) (n_neurons n_digits : Z)
    (g g' : rng) (weights : matrix) (neuron_preferences : list Z) :
  0 < n_neurons ->
  generate_topology topology_type n_neurons n_digits g
  = Ok (weights, neuron_preferences, g') ->
  legend_labels neuron_preferences = map pretty (np_arange n_digits).
Proof.
  intros Hpos Hrun.
  destruct (generate_topology_run _ _ _ _ _ _ _ _ _ Hrun) as (_ & _ & Hprefs & _).
  destruct (generate_topology_preferences _ _ _ _ _ _ _ _ _ Hrun) as [_ Hdiv].
  destruct (Hdiv Hpos) as (_ & Hq & _).
  unfold np_repeat in Hprefs. destruct (Z.ltb_spec (n_neurons / n_digits) 0); [lia |].
  injection Hprefs as <-. unfold legend_labels, np_unique, np_arange. f_equal.
  destruct (Z.to_nat (n_neurons / n_digits)) as [| k] eqn:Ek; [lia |].
  destruct (unique_blocks k 0 (Z.to_nat n_digits)) as [-> ->]. done.
Qed.

End TopologyGraph.

(** ** The further properties at concrete inputs *)

Section FurtherWitnesses.

Import ReportPlot.

Lemma normalize_data_or_note_witness :
  _normalize_acc_history no_str_float (JDict [("samples", JInt 3)])
  = Ok (None, Some "unknown keys: samples") /\
  exists text, Some "unknown keys: samples" = Some text /\ text <> "".
Proof.
  assert (Hrun : _normalize_acc_history no_str_float (JDict [("samples", JInt 3)])
                 = Ok (None, Some "unknown keys: samples")) by reflexivity.
  split; [exact Hrun |].
  exact (normalize_data_or_note no_str_float _ _ _ Hrun).
Defined.

Lemma normalize_series_names_witness :
  let acc_history :=
    JDict [("proto", JList [JFloat 0.5]); ("readout", JList [])] in
  _normalize_acc_history no_str_float acc_history
  = Ok (Some [("readout", []); ("proto", [0.5%float])], None) /\
  NoDup ["readout"; "proto"].
Proof.
  intros acc_history.
  assert (Hrun : _normalize_acc_history no_str_float acc_history
                 = Ok (Some [("readout", []); ("proto", [0.5%float])], None))
    by reflexivity.
  split; [exact Hrun |].
  exact (proj1 (normalize_series_names no_str_float _ _ _ Hrun)).
Defined.

Lemma binned_stat_shape_witness :
  (0 < 2)%nat /\
  exists heat x_edges y_edges,
    binned_stat [0; 1]%float [0; 1]%float [0.5; 0.25]%float 2
    = Ok (heat, x_edges, y_edges) /\
    square 2 heat /\ length x_edges = 3%nat /\ length y_edges = 3%nat.
Proof.
  assert (H : (0 < 2)%nat) by lia.
  split; [exact H |].
  apply (binned_stat_shape [0; 1]%float [0; 1]%float [0.5; 0.25]%float 2 H);
    discriminate.
Defined.

Lemma expand_option_parts_witness :
  "b" ∈ expand_option (Some ["a,,b"; "c"]) /\
  "b" <> "" /\ comma_free "b" = true.
Proof.
  assert (H : "b" ∈ expand_option (Some ["a,,b"; "c"])).
  { vm_compute. apply list_elem_of_further, list_elem_of_here. }
  split; [exact H | exact (expand_option_parts _ _ H)].
Defined.

Lemma expand_option_join_witness :
  Forall (fun part => part <> "") (split_commas "a/s.json,b/s.json") /\
  String.concat "," (expand_option (Some ["a/s.json,b/s.json"]))
  = "a/s.json,b/s.json".
Proof.
  assert (H : Forall (fun part => part <> "") (split_commas "a/s.json,b/s.json")).
  { cbn. constructor; [discriminate |]. constructor; [discriminate | constructor]. }
  split; [exact H | exact (expand_option_join _ H)].
Defined.

Lemma perturb_sets_labelled_witness :
  ("b", Some "a/b/s.json", None) ∈ perturb_sets (Some ["a/b/s.json"]) None None /\
  "b" <> "".
Proof.
  assert (H : ("b", Some "a/b/s.json", None)
              ∈ perturb_sets (Some ["a/b/s.json"]) None None).
  { vm_compute. apply list_elem_of_here. }
  split; [exact H | exact (proj1 (perturb_sets_labelled _ _ _ _ _ _ H))].
Defined.

Lemma parse_formats_clean_witness :
  "pdf" ∈ parse_formats "png, pdf ,," /\
  "pdf" <> "" /\ strip "pdf" = "pdf" /\ comma_free "pdf" = true.
Proof.
  assert (H : "pdf" ∈ parse_formats "png, pdf ,,").
  { vm_compute. apply list_elem_of_further, list_elem_of_here. }
  split; [exact H | exact (parse_formats_clean _ _ H)].
Defined.


Lemma recovery_histograms_bins_witness :
  ([3], 5, "noise") ∈ recovery_histograms decimal_of_str [("noise", example_trials)] /\
  5 <= 5 <= 20.
Proof.
  assert (H : ([3], 5, "noise")
              ∈ recovery_histograms decimal_of_str [("noise", example_trials)]).
  { vm_compute. apply list_elem_of_here. }
  split; [exact H |].
  exact (proj1 (proj2 (proj2 (recovery_histograms_bins decimal_of_str _ _ _ _ H)))).
Defined.

Lemma build_title_defaults_witness :
  "Phase C" <> "" /\
  _build_title plain_float_str plain_container_str "Ring" JNull "Phase C"
  = Ok "Ring | ctrl=standard | sustain=off | Phase C".
Proof.
  assert (H : "Phase C" <> "") by discriminate.
  split; [exact H |].
  exact (build_title_defaults plain_float_str plain_container_str "Ring" JNull
           "Phase C" eq_refl eq_refl eq_refl H).
Defined.

Lemma run_history_not_mapping_witness :
  (forall d, JList [] <> JDict d) /\
  plot_run_history no_str_float plain_float_str plain_container_str
    (JList []) "out" ["png"] "Ring"
  = Ok [Print "[report_plot] Phase C history skipped (missing)"].
Proof.
  assert (H : forall d, JList [] <> JDict d) by discriminate.
  split; [exact H |].
  exact (run_history_not_mapping no_str_float plain_float_str plain_container_str
           _ "out" ["png"] "Ring" H).
Defined.

Lemma run_history_outputs_witness :
  let payload := JDict [("phaseC", JDict [("accHistory", JList [JFloat 0.5])])] in
  exists outs,
    plot_run_history no_str_float plain_float_str plain_container_str
      payload "out" ["png"] "Ring" = Ok outs /\
    length outs = 1%nat.
Proof.
  intros payload.
  destruct (plot_run_history no_str_float plain_float_str plain_container_str
              payload "out" ["png"] "Ring") as [outs | e] eqn:Erun;
    [| vm_compute in Erun; discriminate Erun].
  exists outs. split; [reflexivity |].
  apply (proj2 (run_history_outputs _ _ _ _ _ _ _ _ Erun)).
  intros d [= <-]. reflexivity.
Defined.

Lemma generate_topology_shape_witness :
  exists weights prefs g',
    Topology.generate_topology nat counting_normal "Snake" 4 2 0%nat
    = Ok (weights, prefs, g') /\
    length prefs = 4%nat /\ prefs !! 3%nat = Some 1.
Proof.
  destruct (Topology.generate_topology nat counting_normal "Snake" 4 2 0%nat)
    as [[[weights prefs] g'] | e] eqn:Erun;
    [| vm_compute in Erun; discriminate Erun].
  exists weights, prefs, g'. split; [reflexivity |].
  destruct (generate_topology_shape nat counting_normal _ _ _ _ _ _ _ Erun)
    as (_ & Hlen & Hprefs).
  split; [exact Hlen | exact (Hprefs 3%nat eq_refl)].
Defined.

Lemma ring_distance_bounds_witness :
  (0 <= 1 < 10 /\ 0 <= 8 < 10) /\
  0 <= Topology.digit_distance "Ring" 10 1 8 <= 10 / 2 /\
  Topology.digit_distance "Ring" 10 1 8 <= Topology.digit_distance "Snake" 10 1 8.
Proof.
  assert (Ha : 0 <= 1 < 10) by lia. assert (Hb : 0 <= 8 < 10) by lia.
  split; [by split | exact (ring_distance_bounds 10 1 8 Ha Hb)].
Defined.

Lemma last_digit_wraps_witness :
  2 <= 10 /\
  Topology.digit_distance "Ring" 10 0 9 = 1 /\
  Topology.digit_distance "Snake" 10 0 9 = 9.
Proof.
  assert (H : 2 <= 10) by lia.
  split; [exact H | exact (last_digit_wraps 10 H)].
Defined.

Lemma build_graph_edges_witness :
  exists G,
    Topology.build_graph example_weights [0; 1] = Ok G /\
    is_Some (Topology.adj G !! (1%nat, 0%nat)) /\
    Topology.adj G !! (0%nat, 0%nat) = None.
Proof.
  destruct (Topology.build_graph example_weights [0; 1]) as [G | e] eqn:Ebuild;
    [| vm_compute in Ebuild; discriminate Ebuild].
  exists G. split; [reflexivity |].
  destruct (build_graph_edges _ _ _ Ebuild 1%nat 0%nat) as (Hedge & _ & _).
  destruct (build_graph_edges _ _ _ Ebuild 0%nat 0%nat) as (_ & _ & Hself).
  split; [| exact Hself].
  apply Hedge. split; [discriminate |]. right.
  exists 0.5%float. split; reflexivity.
Defined.

Lemma build_graph_nodes_witness :
  square 2 example_weights /\
  exists G,
    Topology.build_graph example_weights [0; 1] = Ok G /\
    Topology.nodes G = [0; 1]%nat.
Proof.
  assert (H : square 2 example_weights).
  { split; [reflexivity |]. repeat constructor. }
  split; [exact H |].
  apply (proj1 (build_graph_nodes 2 example_weights [0; 1] H)). cbn. lia.
Defined.

Lemma distant_neurons_not_joined_witness :
  exists weights prefs g',
    Topology.generate_topology nat counting_normal "Snake" 3 3 0%nat
    = Ok (weights, prefs, g') /\
    exists G,
      Topology.build_graph weights prefs = Ok G /\
      Topology.adj G !! (0%nat, 2%nat) = None.
Proof.
  destruct (Topology.generate_topology nat counting_normal "Snake" 3 3 0%nat)
    as [[[weights prefs] g'] | e] eqn:Erun;
    [| vm_compute in Erun; discriminate Erun].
  exists weights, prefs, g'. split; [reflexivity |].
  destruct (distant_neurons_not_joined nat counting_normal _ _ _ _ _ _ _ Erun)
    as (G & HG & Hnone).
  exists G. split; [exact HG |].
  vm_compute in Erun. injection Erun as <- <- <-.
  apply (Hnone 0%nat 2%nat 0 2); [reflexivity | reflexivity |].
  vm_compute. discriminate.
Defined.

Lemma legend_lists_digits_witness :
  exists weights prefs g',
    Topology.generate_topology nat counting_normal "Ring" 4 2 0%nat
    = Ok (weights, prefs, g') /\
    Topology.legend_labels prefs = ["0"; "1"].
Proof.
  destruct (Topology.generate_topology nat counting_normal "Ring" 4 2 0%nat)
    as [[[weights prefs] g'] | e] eqn:Erun;
    [| vm_compute in Erun; discriminate Erun].
  exists weights, prefs, g'. split; [reflexivity |].
  assert (Hpos : 0 < 4) by lia.
  exact (legend_lists_digits nat counting_normal _ _ _ _ _ _ _ Hpos Erun).
Defined.

End FurtherWitnesses.
